(** * alienware-lights: protocol encoders and session handling

    A shallow embedding of [alienware_lights.py].  Device I/O is a trace of
    events produced by a small state-and-exception monad; the two Python
    classes [Keyboard] and [Tron] become modules of the same name. *)

From stdpp Require Import base list strings sorting.
From Stdlib Require Import ZArith Lia Ascii DecimalString.

Open Scope Z_scope.
Open Scope list_scope.

(** ** Exceptions, events and the execution monad *)

(** The Python exceptions the program can meet.  [OSError] stands for an
    [OSError] that is neither a [PermissionError] nor a
    [FileNotFoundError]. *)
Inductive exn : Type :=
  | ValueError
  | TypeError
  | IndexError
  | OSError
  | PermissionError
  | FileNotFoundError
  | SystemExit (code : Z).

(** Observable effects, in program order.  Sleeps are recorded in
    milliseconds ([time.sleep(0.05)] is [Sleep 50]). *)
Inductive event : Type :=
  | Open (path : string) (fd : Z)
  | Close (fd : Z)
  | Ioctl (fd : Z) (request : Z) (buf : list Z)
  | Write (fd : Z) (pkt : list Z)
  | Sleep (ms : Z)
  | WriteFile (path : string) (data : string)
  | Run (argv : list string)
  | Print (text : string)
  | PrintErr (text : string).

(** What the operating system answers.  [uevents] is the result of the glob
    [/sys/class/hidraw/hidraw*/device/uevent] in enumeration order, each path
    with the text Python reads from the file; [open_error] is the exception
    [os.open] raises on a device node, if any, and [new_fd] the descriptor it
    returns otherwise; [refuses] tells which device writes are refused with
    [OSError]; [write_error] is the exception that opening a file for
    writing or writing it raises, if any ([PermissionError] for an
    unprivileged user on the usbhid control files, [FileNotFoundError] where
    the driver is absent); [run_error] is the exception [subprocess.run]
    raises when the program cannot be started, if any.  [os.close],
    [time.sleep] and [print] are taken not to fail. *)
Record env : Type := Env {
  uevents : list (string * string);
  new_fd : string -> Z;
  refuses : Z -> list Z -> bool;
  open_error : string -> option exn;
  write_error : string -> option exn;
  run_error : list string -> option exn
}.

Record outcome (S A : Type) : Type := Outcome {
  trace : list event;
  state : S;
  result : exn + A
}.
Arguments Outcome {S A} _ _ _.
Arguments trace {S A} _.
Arguments state {S A} _.
Arguments result {S A} _.

(** A computation over a mutable object of type [S]: it always leaves a state
    behind, also when it raises, as Python objects do. *)
Definition M (S A : Type) : Type := S -> outcome S A.

Definition ret {S A} (a : A) : M S A := fun s => Outcome [] s (inr a).

Definition raise {S A} (e : exn) : M S A := fun s => Outcome [] s (inl e).

Definition bind {S A B} (m : M S A) (f : A -> M S B) : M S B :=
  fun s =>
    let r := m s in
    match result r with
    | inl e => Outcome (trace r) (state r) (inl e)
    | inr a =>
        let r' := f a (state r) in
        Outcome (trace r ++ trace r') (state r') (result r')
    end.

Definition get {S} : M S S := fun s => Outcome [] s (inr s).

Definition put {S} (s : S) : M S unit := fun _ => Outcome [] s (inr tt).

Definition emit {S} (e : event) : M S unit := fun s => Outcome [e] s (inr tt).

(** [try: body finally: fin].  The finaliser runs on the state the body left;
    an exception of the finaliser replaces the one of the body. *)
Definition try_finally {S A} (body : M S A) (fin : M S unit) : M S A :=
  fun s =>
    let r := body s in
    let r' := fin (state r) in
    Outcome (trace r ++ trace r') (state r')
      match result r' with
      | inl e => inl e
      | inr _ => result r
      end.

(** [try: body except ...: handler].  [handler] tells which exceptions are
    caught and what runs then, on the state the body left. *)
Definition try_except {S A} (body : M S A) (handler : exn -> option (M S A))
  : M S A :=
  fun s =>
    let r := body s in
    match result r with
    | inl e =>
        match handler e with
        | Some h =>
            let r' := h (state r) in
            Outcome (trace r ++ trace r') (state r') (result r')
        | None => r
        end
    | inr _ => r
    end.

Declare Scope monad_scope.
Delimit Scope monad_scope with monad.
Notation "x <- m ;; k" := (bind m (fun x => k))
  (at level 100, m at next level, k at level 200, right associativity)
  : monad_scope.
Notation "m ;; k" := (bind m (fun _ => k))
  (at level 100, k at level 200, right associativity) : monad_scope.
Open Scope monad_scope.

(** [for x in l: f(x)] *)
Fixpoint for_ {S A} (l : list A) (f : A -> M S unit) : M S unit :=
  match l with
  | [] => ret tt
  | x :: l' => f x ;; for_ l' f
  end.

(** [if c: m] *)
Definition when {S} (c : bool) (m : M S unit) : M S unit :=
  if c then m else ret tt.

(** ** Python built-ins *)

Definition is_byte (b : Z) : bool := (0 <=? b) && (b <? 256).

(** [bytes(l)]: [ValueError] unless every element is in [range(256)]. *)
Definition bytes (l : list Z) : exn + list Z :=
  if forallb is_byte l then inr l else inl ValueError.

(** [len(l)] *)
Definition len {A} (l : list A) : Z := Z.of_nat (length l).

(** [[x] * n]: the empty list when [n] is not positive. *)
Definition times {A} (x : A) (n : Z) : list A := repeat x (Z.to_nat n).

(** [range(start, stop)] *)
Definition range (start stop : Z) : list Z :=
  map (fun k => start + Z.of_nat k) (seq 0 (Z.to_nat (stop - start))).

(** [range(start, stop, step)] for a positive step. *)
Definition range_step (start stop step : Z) : list Z :=
  map (fun k => start + step * Z.of_nat k)
      (seq 0 (Z.to_nat ((stop - start + step - 1) / step))).

Definition lift_exn {S A} (r : exn + A) : M S A :=
  match r with
  | inl e => raise e
  | inr a => ret a
  end.

(** [time.sleep], in milliseconds. *)
Definition sleep {S} (ms : Z) : M S unit := emit (Sleep ms).

(** ** Python string operations

    Strings are byte strings and stand for ASCII text, where a byte is a
    character of Python's [str]: there slicing, [lower], [strip] and [int]
    act as the functions below, and the order of [String.le] is the order of
    Python's [str] comparison.  Outside ASCII a Python character is several
    bytes and Unicode has further digits, spaces and letters, which these
    functions do not know. *)

(** Text made of ASCII characters only. *)
Fixpoint is_ascii (s : string) : bool :=
  match s with
  | EmptyString => true
  | String a s' => (N_of_ascii a <? 128)%N && is_ascii s'
  end.

(** [s.split(c)] for a one-character separator. *)
Fixpoint split_char (c : ascii) (s : string) : list string :=
  match s with
  | EmptyString => [EmptyString]
  | String a s' =>
      if Ascii.eqb a c then EmptyString :: split_char c s'
      else match split_char c s' with
           | w :: ws => String a w :: ws
           | [] => [String a EmptyString]
           end
  end.

(** [s.split(c, 1)] *)
Fixpoint split_once (c : ascii) (s : string) : list string :=
  match s with
  | EmptyString => [EmptyString]
  | String a s' =>
      if Ascii.eqb a c then [EmptyString; s']
      else match split_once c s' with
           | w :: ws => String a w :: ws
           | [] => [String a EmptyString]
           end
  end.

(** [s.startswith(p)] *)
Fixpoint startswith (p s : string) : bool :=
  match p with
  | EmptyString => true
  | String a p' =>
      match s with
      | EmptyString => false
      | String b s' => Ascii.eqb a b && startswith p' s'
      end
  end.

(** [sub in s] *)
Fixpoint contains (sub s : string) : bool :=
  startswith sub s ||
  match s with
  | EmptyString => false
  | String _ s' => contains sub s'
  end.

(** The characters [str.strip] removes: tab to carriage return, the four
    separators 0x1c to 0x1f, and the space. *)
Definition is_space (a : ascii) : bool :=
  let n := N_of_ascii a in
  ((9 <=? n) && (n <=? 13) || (28 <=? n) && (n <=? 32))%N.

Fixpoint lstrip (s : string) : string :=
  match s with
  | EmptyString => EmptyString
  | String a s' => if is_space a then lstrip s' else s
  end.

Fixpoint rstrip (s : string) : string :=
  match s with
  | EmptyString => EmptyString
  | String a s' =>
      match rstrip s' with
      | EmptyString => if is_space a then EmptyString else String a EmptyString
      | t => String a t
      end
  end.

(** [s.strip()] *)
Definition strip (s : string) : string := lstrip (rstrip s).

(** [s.lower()] of ASCII text. *)
Definition lower_ascii (a : ascii) : ascii :=
  let n := N_of_ascii a in
  if ((65 <=? n) && (n <=? 90))%N then ascii_of_N (n + 32) else a.

Fixpoint lower (s : string) : string :=
  match s with
  | EmptyString => EmptyString
  | String a s' => String (lower_ascii a) (lower s')
  end.

(** [for line in f]: the lines of a text, each with its line feed. *)
Fixpoint lines (s : string) : list string :=
  match s with
  | EmptyString => []
  | String a s' =>
      if Ascii.eqb a "010"%char then String a EmptyString :: lines s'
      else match lines s' with
           | l :: ls =>
               match s' with
               | EmptyString => [String a EmptyString]
               | _ => String a l :: ls
               end
           | [] => [String a EmptyString]
           end
  end.

(** Truth value of an optional string: [None] and the empty string are
    false. *)
Definition truthy (o : option string) : bool :=
  match o with
  | None | Some EmptyString => false
  | Some _ => true
  end.

(** [str(n)] of a natural number. *)
Definition str_nat (n : nat) : string :=
  NilZero.string_of_uint (Nat.to_uint n).

Definition hex_digit (d : Z) : ascii :=
  if d <? 10 then ascii_of_N (Z.to_N d + 48) else ascii_of_N (Z.to_N d + 55).

Fixpoint hex_digits (fuel : nat) (n : Z) (acc : string) : string :=
  match fuel with
  | O => acc
  | S fuel' =>
      let acc' := String (hex_digit (n mod 16)) acc in
      if n <? 16 then acc' else hex_digits fuel' (n / 16) acc'
  end.

(** [format(v, "02X")]: upper-case hexadecimal, zero-padded to two
    characters, the sign included in the width. *)
Definition format_02X (v : Z) : string :=
  let digits := hex_digits (S (Z.to_nat (Z.log2 (Z.abs v)))) (Z.abs v) EmptyString in
  if v <? 0 then String "-"%char digits
  else if (String.length digits <? 2)%nat then String "0"%char digits
  else digits.

(** ** Colour tokens

    The functions of this section are Python's on ASCII tokens; what is
    proved about a token that is not built here assumes [is_ascii]. *)

(** The value of a hexadecimal digit. *)
Definition hex_value (a : ascii) : option Z :=
  let n := Z.of_N (N_of_ascii a) in
  if (48 <=? n) && (n <=? 57) then Some (n - 48)
  else if (65 <=? n) && (n <=? 70) then Some (n - 55)
  else if (97 <=? n) && (n <=? 102) then Some (n - 87)
  else None.

(** The digits of an integer literal: hexadecimal digits, with single
    underscores between them. *)
Fixpoint int_digits (s : string) (acc : Z) (after_underscore : bool)
  : option Z :=
  match s with
  | EmptyString => if after_underscore then None else Some acc
  | String a s' =>
      if Ascii.eqb a "_" then
        if after_underscore then None else int_digits s' acc true
      else
        match hex_value a with
        | Some d => int_digits s' (16 * acc + d) false
        | None => None
        end
  end.

(** The whitespace [int] skips: tab to carriage return, and the space. *)
Definition is_int_space (a : ascii) : bool :=
  let n := N_of_ascii a in
  ((9 <=? n) && (n <=? 13) || (n =? 32))%N.

Fixpoint int_lstrip (s : string) : string :=
  match s with
  | EmptyString => EmptyString
  | String a s' => if is_int_space a then int_lstrip s' else s
  end.

Fixpoint int_rstrip (s : string) : string :=
  match s with
  | EmptyString => EmptyString
  | String a s' =>
      match int_rstrip s' with
      | EmptyString =>
          if is_int_space a then EmptyString else String a EmptyString
      | t => String a t
      end
  end.

(** [int(s, 16)] of ASCII text: surrounding whitespace, an optional sign,
    an optional [0x] prefix (one underscore may follow it), then the
    digits. *)
Definition int16 (s : string) : exn + Z :=
  let s := int_lstrip (int_rstrip s) in
  let '(sign, s) :=
    match s with
    | String "+" s' => (1, s')
    | String "-" s' => (-1, s')
    | _ => (1, s)
    end in
  let s :=
    match s with
    | String "0" (String "x" s') | String "0" (String "X" s') =>
        match s' with
        | String "_" s'' => s''
        | _ => s'
        end
    | _ => s
    end in
  match s with
  | EmptyString => inl ValueError
  | String "_" _ => inl ValueError
  | _ =>
      match int_digits s 0 false with
      | Some v => inr (sign * v)
      | None => inl ValueError
      end
  end.

(** [s.lstrip("#")] *)
Fixpoint lstrip_hash (s : string) : string :=
  match s with
  | String "#" s' => lstrip_hash s'
  | _ => s
  end.

(** [parse_color(s)] of an ASCII token. *)
Definition parse_color (s : string) : exn + (Z * Z * Z) :=
  let s := lstrip_hash s in
  match int16 (String.substring 0 2 s) with
  | inl e => inl e
  | inr r =>
      match int16 (String.substring 2 2 s) with
      | inl e => inl e
      | inr g =>
          match int16 (String.substring 4 2 s) with
          | inl e => inl e
          | inr b => inr (r, g, b)
          end
      end
  end.

(** ** Device discovery *)

Section Discovery.
Variable E : env.

  (** [open(path).read()] of a descriptor record; [None] when the file does
      not exist. *)
Definition read_text (path : string) : option string :=
    match List.find (fun rec => String.eqb (fst rec) path) (uevents E) with
    | Some rec => Some (snd rec)
    | None => None
    end.

  (** [sorted(glob.glob(...))] *)
Definition sorted_glob : list string :=
    merge_sort String.le (map fst (uevents E)).

  (** The loop of [find_hidraw] over the sorted paths. *)
Fixpoint scan (vid pid : string) (paths : list string)
    : exn + option string :=
    match paths with
    | [] => inr None
    | path :: rest =>
        match read_text path with
        | None => inl OSError
        | Some content =>
            if contains vid content && contains pid content then
              match nth_error (split_char "/" path) 4 with
              | Some node => inr (Some ("/dev/" +:+ node))
              | None => inl IndexError
              end
            else scan vid pid rest
        end
    end.

Definition find_hidraw (vid pid : string) : exn + option string :=
    scan vid pid sorted_glob.

End Discovery.

(** The path of the descriptor record of a device node. *)
Definition uevent_path (node : string) : string :=
  "/sys/class/hidraw/" +:+ node +:+ "/device/uevent".

(** A registry as the glob produces it: every path is the descriptor record
    of a node whose name has no slash, and no path occurs twice. *)
Definition registry_ok (E : env) : Prop :=
  NoDup (map fst (uevents E))
  /\ Forall (fun path =>
               exists node,
                 path = uevent_path node /\ contains "/" node = false)
            (map fst (uevents E)).

(** ** The session object shared by both controller classes *)

Record hid : Type := Hid {
  dev : option string;
  fd : option Z
}.

Definition HIDIOCSFEATURE (l : Z) : Z := Z.lor 0xC0004806 (Z.shiftl l 16).

Definition color : Type := Z * Z * Z.

Section Posix.
Variable E : env.

  (** [self.fd = os.open(self.dev, os.O_RDWR | os.O_NONBLOCK)] *)
Definition os_open (path : string) : M hid unit :=
    self <- get ;;
    match open_error E path with
    | Some e => raise e
    | None =>
        emit (Open path (new_fd E path)) ;;
        put (Hid (dev self) (Some (new_fd E path)))
    end.

  (** [if self.fd is not None: os.close(self.fd); self.fd = None] *)
Definition close_handle : M hid unit :=
    self <- get ;;
    match fd self with
    | Some n =>
        emit (Close n) ;;
        put (Hid (dev self) None)
    | None => ret tt
    end.

  (** [fcntl.ioctl(fd, request, buf)] *)
Definition fcntl_ioctl (f : option Z) (request : Z) (buf : list Z)
    : M hid unit :=
    match f with
    | None => raise TypeError
    | Some n =>
        if refuses E n buf then raise OSError else emit (Ioctl n request buf)
    end.

  (** [os.write(fd, pkt)] *)
Definition os_write (f : option Z) (pkt : list Z) : M hid unit :=
    match f with
    | None => raise TypeError
    | Some n =>
        if refuses E n pkt then raise OSError else emit (Write n pkt)
    end.

  (** [with open(path, "w") as f: f.write(data)] *)
Definition write_file (path data : string) : M hid unit :=
    match write_error E path with
    | Some e => raise e
    | None => emit (WriteFile path data)
    end.

  (** [subprocess.run(argv, check=False, capture_output=True)]: the exit
      status of the program is ignored. *)
Definition subprocess_run (argv : list string) : M hid unit :=
    match run_error E argv with
    | Some e => raise e
    | None => emit (Run argv)
    end.

End Posix.

(** ** Keyboard (feature reports with report id 0xCC) *)

Module Keyboard.
Section WithEnv.
Variable E : env.

Definition __init__ : exn + hid :=
    match find_hidraw E "0D62" "BABC" with
    | inl e => inl e
    | inr d => inr (Hid d None)
    end.

Definition open : M hid bool :=
    self <- get ;;
    if negb (truthy (dev self)) then
      emit (PrintErr "Warning: keyboard not found") ;;
      ret false
    else
      os_open E (default "" (dev self)) ;;
      ret true.

  (** The loop of [_rebind] over the lines of the descriptor record. *)
Fixpoint find_phys (ls : list string) : option string :=
    match ls with
    | [] => None
    | line :: rest =>
        if startswith "HID_PHYS=" line then
          Some (nth 0 (split_char "/" (nth 1 (split_once "=" (strip line)) ""))
                    "")
        else find_phys rest
    end.

Definition quoted (s : string) : string :=
    String "034"%char (s +:+ String "034"%char EmptyString).

Definition _rebind : M hid unit :=
    self <- get ;;
    if negb (truthy (dev self)) then ret tt
    else
      let uevent := "/sys/class/hidraw/"
                    +:+ List.last (split_char "/" (default "" (dev self))) ""
                    +:+ "/device/uevent" in
      match read_text E uevent with
      | None => ret tt
      | Some text =>
          let phys := find_phys (lines text) in
          if truthy phys then
            let phys := default "" phys in
            try_except
              (write_file E "/sys/bus/usb/drivers/usbhid/unbind" phys ;;
               sleep 200 ;;
               write_file E "/sys/bus/usb/drivers/usbhid/bind" phys)
              (fun e =>
                 match e with
                 | PermissionError =>
                     Some (subprocess_run E
                             ["pkexec"; "bash"; "-c";
                              "echo " +:+ quoted phys
                              +:+ " > /sys/bus/usb/drivers/usbhid/unbind; "
                              +:+ "sleep 0.2; "
                              +:+ "echo " +:+ quoted phys
                              +:+ " > /sys/bus/usb/drivers/usbhid/bind"])
                 | _ => None
                 end)
          else ret tt
      end.

Definition close : M hid unit :=
    close_handle ;;
    _rebind.

Definition _send (data : list Z) : M hid unit :=
    pkt <- lift_exn (bytes ([0xCC] ++ data ++ times 0 (64 - 1 - len data))) ;;
    self <- get ;;
    fcntl_ioctl E (fd self) (HIDIOCSFEATURE 64) pkt.

Definition _reset : M hid unit :=
    _send [0x94] ;;
    sleep 50.

Definition _commit : M hid unit :=
    _send [0x8b; 0x01; 0xFF].

Definition _set_all_keys (r g b : Z) : M hid unit :=
    for_ (range_step 0 0x88 15) (fun i =>
      let keys := range i (Z.min (i + 15) 0x88) in
      let data := fold_left (fun data k => data ++ [k + 1; r; g; b]) keys
                            [0x8c; 0x02; 0x00] in
      _send data ;;
      sleep 10) ;;
    _send [0x8c; 0x13] ;;
    sleep 10.

Definition _disable_effect : M hid unit :=
    _send [0x80; 0x01; 0xFE; 0x00; 0x00; 0x01; 0x01; 0x01] ;;
    sleep 50.

  (** The payload [_global_effect] builds before it sends it. *)
Definition global_effect_data (eff_type tempo : Z) (colors : list color)
    : list Z :=
    let data := [0x80; eff_type; tempo; 0x00; 0x00; 0x01; 0x01; 0x01] in
    let data := data ++ [len colors - 1] in
    fold_left (fun data '(r, g, b) => data ++ [r; g; b]) colors data.

Definition _global_effect (eff_type tempo : Z) (colors : list color)
    : M hid unit :=
    _send (global_effect_data eff_type tempo colors) ;;
    sleep 50.

Definition static (r g b : Z) : M hid unit :=
    _reset ;;
    _disable_effect ;;
    _set_all_keys r g b ;;
    _commit.

Definition breathe (colors : list color) : M hid unit :=
    _reset ;;
    _disable_effect ;;
    _global_effect 0x02 0x07 colors ;;
    _commit.

Definition spectrum : M hid unit :=
    _reset ;;
    _disable_effect ;;
    let colors := [(0xFF, 0, 0); (0, 0xFF, 0); (0, 0, 0xFF)] in
    _global_effect 0x02 0x05 colors ;;
    _commit.

Definition wave : M hid unit :=
    _reset ;;
    _disable_effect ;;
    let colors := [(0xFF, 0, 0); (0, 0xFF, 0); (0, 0, 0xFF)] in
    _global_effect 0x03 0x05 colors ;;
    _commit.

Definition pulse (r g b : Z) : M hid unit :=
    _reset ;;
    _disable_effect ;;
    _global_effect 0x08 0x07 [(r, g, b)] ;;
    _commit.

Definition morph (colors : list color) : M hid unit :=
    _reset ;;
    _disable_effect ;;
    _global_effect 0x02 0x05 colors ;;
    _commit.

Definition off : M hid unit :=
    static 0 0 0.

End WithEnv.
End Keyboard.

(** ** Tron lights: ring and logos (output reports) *)

Module Tron.

Definition RING_ZONES : list Z := range 10 20.
Definition LOGO_ZONES : list Z := [0; 1].
Definition POWER_STATES : list Z := [0x5b; 0x5c; 0x5d; 0x5e; 0x5f; 0x60].

Definition MORPH_EFFECT : Z := 0x02.
Definition COLOR_EFFECT : Z := 0x00.
Definition COLOR_MODE : Z := 0xD0.
Definition MORPH_MODE : Z := 0xCF.
Definition PULSE_MODE : Z := 0xDC.

Definition _static_action (r g b : Z) : list Z :=
    [COLOR_EFFECT; 0x07; COLOR_MODE; 0x00; 0xFA; r; g; b].

Definition _morph_actions (colors : list color) : list Z :=
    fold_left
      (fun data '(r, g, b) =>
         data ++ [MORPH_EFFECT; 0x07; MORPH_MODE; 0x00; 0x64; r; g; b])
      (firstn 3 colors) [].

Definition _pulse_action (r g b : Z) : list Z :=
    [0x01; 0x07; PULSE_MODE; 0x00; 0x64; r; g; b].

Section WithEnv.
Variable E : env.

Definition __init__ : exn + hid :=
    match find_hidraw E "187C" "0550" with
    | inl e => inl e
    | inr d => inr (Hid d None)
    end.

Definition open : M hid bool :=
    self <- get ;;
    if negb (truthy (dev self)) then
      emit (PrintErr "Warning: AW-ELC not found") ;;
      ret false
    else
      os_open E (default "" (dev self)) ;;
      ret true.

Definition close : M hid unit :=
    close_handle.

Definition _send (data : list Z) : M hid unit :=
    pkt <- lift_exn (bytes ([0x03] ++ data ++ times 0 (33 - 1 - len data))) ;;
    self <- get ;;
    os_write E (fd self) pkt ;;
    sleep 20.

Definition _set_ring (actions : list Z) (zones : option (list Z))
    : M hid unit :=
    let zones := match zones with None => RING_ZONES | Some z => z end in
    _send [0x21; 0x00; 0x04; 0x00; 0xFF] ;;
    _send [0x21; 0x00; 0x01; 0x00; 0xFF] ;;
    _send ([0x23; 0x01; 0x00; len zones] ++ zones) ;;
    _send ([0x24] ++ actions) ;;
    _send [0x21; 0x00; 0x03; 0x00; 0xFF].

Definition _set_logos (actions : list Z) (zones : option (list Z))
    : M hid unit :=
    let zones := match zones with None => LOGO_ZONES | Some z => z end in
    _send [0x21; 0x00; 0x03; 0x00; 0xFF] ;;
    sleep 50 ;;
    for_ POWER_STATES (fun state =>
      _send [0x22; 0x00; 0x04; 0x00; state] ;;
      _send [0x22; 0x00; 0x01; 0x00; state] ;;
      _send ([0x23; 0x01; 0x00; len zones] ++ zones) ;;
      _send ([0x24] ++ actions) ;;
      _send [0x22; 0x00; 0x02; 0x00; state]) ;;
    _send [0x21; 0x00; 0x05; 0x00; 0xFF].

Definition static (r g b : Z) (ring logos : bool) : M hid unit :=
    let action := _static_action r g b in
    when ring (_set_ring action None) ;;
    when logos (_set_logos action None).

Definition breathe (colors : list color) (ring logos : bool) : M hid unit :=
    let actions := _morph_actions colors in
    when ring (_set_ring actions None) ;;
    when logos (_set_logos actions None).

Definition morph (colors : list color) (ring logos : bool) : M hid unit :=
    breathe colors ring logos.

Definition spectrum (ring logos : bool) : M hid unit :=
    let colors := [(0xFF, 0, 0); (0, 0xFF, 0); (0, 0, 0xFF)] in
    breathe colors ring logos.

Definition pulse (r g b : Z) (ring logos : bool) : M hid unit :=
    let action := _pulse_action r g b in
    when ring (_set_ring action None) ;;
    when logos (_set_logos action None).

Definition off (ring logos : bool) : M hid unit :=
    static 0 0 0 ring logos.

End WithEnv.
End Tron.

(** ** Command line *)

(** The module docstring, printed as the help text. *)
Definition doc : string :=
"Alienware x15 R1 RGB light controller.

Usage:
  alienware-lights static RRGGBB           Set all lights to a solid color
  alienware-lights breathe RRGGBB [RRGGBB] Breathing effect with 1-3 colors
  alienware-lights morph RRGGBB RRGGBB ... Morph/cycle between 2-3 colors
  alienware-lights spectrum                Rainbow spectrum cycle
  alienware-lights wave                    Rainbow wave effect
  alienware-lights pulse RRGGBB            Pulsing single color
  alienware-lights off                     Turn all lights off

  Targets (optional, default: all):
    --keyboard   Only keyboard
    --tron       Only tron (ring + logos)
    --ring       Only ring
    --logos      Only logos

Examples:
  alienware-lights static FF1493
  alienware-lights breathe FF0000 00FF00 0000FF
  alienware-lights spectrum --keyboard
  alienware-lights off
".

(** The two objects [main] creates. *)
Record world : Type := World {
  kbd : hid;
  tron : hid
}.

Definition on_kbd {A} (m : M hid A) : M world A :=
  fun w =>
    let r := m (kbd w) in
    Outcome (trace r) (World (state r) (tron w)) (result r).

Definition on_tron {A} (m : M hid A) : M world A :=
  fun w =>
    let r := m (tron w) in
    Outcome (trace r) (World (kbd w) (state r)) (result r).

(** [x in args] *)
Definition mem (x : string) (args : list string) : bool :=
  existsb (String.eqb x) args.

Section Main.
Variable E : env.

  (** [parse_color] belongs to the command-line boundary: any function from
      a token to a colour or an exception. *)
Variable parse_color : string -> exn + color.

  (** [[parse_color(c) for c in color_args]] *)
Fixpoint parse_colors (l : list string) : exn + list color :=
    match l with
    | [] => inr []
    | c :: l' =>
        match parse_color c with
        | inl e => inl e
        | inr x =>
            match parse_colors l' with
            | inl e => inl e
            | inr xs => inr (x :: xs)
            end
        end
    end.

Definition first_color_or_default (color_args : list string)
    : exn + color :=
    match color_args with
    | c :: _ => parse_color c
    | [] => inr (0xFF, 0x14, 0x93)
    end.

Definition colors_or_default (color_args : list string)
    : exn + list color :=
    match color_args with
    | _ :: _ => parse_colors color_args
    | [] => inr [(0xFF, 0, 0); (0, 0xFF, 0); (0, 0, 0xFF)]
    end.

Definition hex_color (r g b : Z) : string :=
    "#" +:+ format_02X r +:+ format_02X g +:+ format_02X b.

  (** The body of the [try] block. *)
Definition dispatch (cmd : string) (color_args : list string)
             (do_keyboard do_ring_actual do_logos_actual : bool)
    : M world unit :=
    let do_tron := do_ring_actual || do_logos_actual in
    if String.eqb cmd "static" then
      c <- lift_exn (first_color_or_default color_args) ;;
      let '(r, g, b) := c in
      when do_keyboard (on_kbd (Keyboard.static E r g b)) ;;
      when do_tron
        (on_tron (Tron.static E r g b do_ring_actual do_logos_actual)) ;;
      emit (Print ("Static " +:+ hex_color r g b))
    else if String.eqb cmd "breathe" then
      colors <- lift_exn (colors_or_default color_args) ;;
      when do_keyboard (on_kbd (Keyboard.breathe E colors)) ;;
      when do_tron
        (on_tron (Tron.breathe E colors do_ring_actual do_logos_actual)) ;;
      emit (Print ("Breathing with " +:+ str_nat (length colors)
                   +:+ " colors"))
    else if String.eqb cmd "morph" then
      colors <- lift_exn (colors_or_default color_args) ;;
      when do_keyboard (on_kbd (Keyboard.morph E colors)) ;;
      when do_tron
        (on_tron (Tron.morph E colors do_ring_actual do_logos_actual)) ;;
      emit (Print ("Morphing with " +:+ str_nat (length colors)
                   +:+ " colors"))
    else if String.eqb cmd "spectrum" then
      when do_keyboard (on_kbd (Keyboard.spectrum E)) ;;
      when do_tron
        (on_tron (Tron.spectrum E do_ring_actual do_logos_actual)) ;;
      emit (Print "Spectrum cycle")
    else if String.eqb cmd "wave" then
      when do_keyboard (on_kbd (Keyboard.wave E)) ;;
      when do_tron
        (on_tron (Tron.spectrum E do_ring_actual do_logos_actual)) ;;
      emit (Print "Rainbow wave")
    else if String.eqb cmd "pulse" then
      c <- lift_exn (first_color_or_default color_args) ;;
      let '(r, g, b) := c in
      when do_keyboard (on_kbd (Keyboard.pulse E r g b)) ;;
      when do_tron
        (on_tron (Tron.pulse E r g b do_ring_actual do_logos_actual)) ;;
      emit (Print ("Pulsing " +:+ hex_color r g b))
    else if String.eqb cmd "off" then
      when do_keyboard (on_kbd (Keyboard.off E)) ;;
      when do_tron
        (on_tron (Tron.off E do_ring_actual do_logos_actual)) ;;
      emit (Print "Lights off")
    else
      emit (PrintErr ("Unknown command: " +:+ cmd)) ;;
      emit (Print doc) ;;
      raise (SystemExit 1).

  (** The [finally] block. *)
Definition teardown (do_keyboard : bool) : M world unit :=
    when do_keyboard (on_kbd (Keyboard.close E)) ;;
    on_tron Tron.close.

Definition wants_help (args : list string) : bool :=
    match args with
    | [] => true
    | a :: _ => String.eqb a "-h" || String.eqb a "--help"
    end.

  (** [main()], with [argv] for [sys.argv[1:]]. *)
Definition main (argv : list string) : M world unit :=
    let args := argv in
    if wants_help args then
      emit (Print doc) ;;
      raise (SystemExit 0)
    else
      let do_keyboard := mem "--keyboard" args in
      let do_tron := mem "--tron" args in
      let do_ring := mem "--ring" args in
      let do_logos := mem "--logos" args in
      let args := List.filter (fun a => negb (startswith "--" a)) args in
      let none := negb (do_keyboard || do_tron || do_ring || do_logos) in
      let do_keyboard := if none then true else do_keyboard in
      let do_tron := if none then true else do_tron in
      let do_ring_actual := do_tron || do_ring in
      let do_logos_actual := do_tron || do_logos in
      match args with
      | [] => raise IndexError
      | arg0 :: color_args =>
          let cmd := lower arg0 in
          k <- lift_exn (Keyboard.__init__ E) ;;
          t <- lift_exn (Tron.__init__ E) ;;
          put (World k t) ;;
          do_keyboard <-
            (if do_keyboard then on_kbd (Keyboard.open E) else ret false) ;;
          tron_ok <-
            (if do_ring_actual || do_logos_actual
             then on_tron (Tron.open E) else ret true) ;;
          let do_ring_actual := do_ring_actual && tron_ok in
          let do_logos_actual := do_logos_actual && tron_ok in
          try_finally
            (dispatch cmd color_args do_keyboard do_ring_actual
                      do_logos_actual)
            (teardown do_keyboard)
      end.

End Main.

(** The state before [main] has created its objects. *)
Definition boot : world := World (Hid None None) (Hid None None).

(** ** Command scripts

    An encoder method is a straight-line sequence of transport sends and
    sleeps.  A script lists them; [refines] says that a method is exactly the
    program that runs its script, send after send, and stops at the first
    send that raises. *)

Inductive op : Type :=
  | Send (data : list Z)
  | Wait (ms : Z).

Section Script.
Variable send : list Z -> M hid unit.

Definition do_op (o : op) : M hid unit :=
    match o with
    | Send data => send data
    | Wait ms => sleep ms
    end.

Fixpoint run_script (ops : list op) : M hid unit :=
    match ops with
    | [] => ret tt
    | o :: rest => do_op o ;; run_script rest
    end.

Definition refines (m : M hid unit) (ops : list op) : Prop :=
    forall s, m s = run_script ops s.

End Script.

(** The payloads a script sends, in order. *)
Definition payloads (ops : list op) : list (list Z) :=
  flat_map (fun o => match o with Send d => [d] | Wait _ => [] end) ops.

(** The buffers a trace hands to the devices, in order. *)
Definition sent (tr : list event) : list (list Z) :=
  flat_map (fun e => match e with
                     | Ioctl _ _ buf => [buf]
                     | Write _ pkt => [pkt]
                     | _ => []
                     end) tr.

(** A report as the specification describes it: the report id, the payload,
    then zeros up to [size] bytes. *)
Definition frame (report_id : Z) (size : nat) (payload : list Z) : list Z :=
  report_id :: payload ++ repeat 0 (size - 1 - length payload)%nat.

(** What a successful send leaves in the trace. *)
Definition kbd_wire (s : hid) (d : list Z) : list event :=
  match fd s with
  | Some n => [Ioctl n (HIDIOCSFEATURE 64) (frame 0xCC 64 d)]
  | None => []
  end.

Definition tron_wire (s : hid) (d : list Z) : list event :=
  match fd s with
  | Some n => [Write n (frame 0x03 33 d); Sleep 20]
  | None => []
  end.

(** The events of one script step. *)
Definition op_events (wire : hid -> list Z -> list event) (s : hid) (o : op)
  : list event :=
  match o with
  | Send d => wire s d
  | Wait ms => [Sleep ms]
  end.

Definition bytes_ok (l : list Z) : Prop := Forall (fun b => 0 <= b < 256) l.

Definition color_ok (c : color) : Prop :=
  let '(r, g, b) := c in 0 <= r < 256 /\ 0 <= g < 256 /\ 0 <= b < 256.

(** [l] cut into consecutive pieces of [n] elements, the last one shorter. *)
Fixpoint chunks_fuel {A} (fuel n : nat) (l : list A) : list (list A) :=
  match fuel, l with
  | O, _ | _, [] => []
  | S fuel', _ => firstn n l :: chunks_fuel fuel' n (skipn n l)
  end.

Definition chunks {A} (n : nat) (l : list A) : list (list A) :=
  chunks_fuel (length l) n l.

(** ** The keyboard protocol as the specification words it *)

Module KeyboardSpec.

Definition reset_cmd : list Z := [0x94].
Definition disable_cmd : list Z :=
    [0x80; 0x01; 0xFE; 0x00; 0x00; 0x01; 0x01; 0x01].
Definition commit_cmd : list Z := [0x8B; 0x01; 0xFF].
Definition commit_keys_cmd : list Z := [0x8C; 0x13].

  (** The 0x88 key indices. *)
Definition key_indices : list Z := map Z.of_nat (seq 0 136).

Definition chunk_cmd (r g b : Z) (keys : list Z) : list Z :=
    [0x8C; 0x02; 0x00] ++ flat_map (fun k => [k + 1; r; g; b]) keys.

Definition global_cmd (effect_type tempo : Z) (colors : list color)
    : list Z :=
    [0x80; effect_type; tempo; 0x00; 0x00; 0x01; 0x01; 0x01;
     Z.of_nat (length colors) - 1]
    ++ flat_map (fun '(r, g, b) => [r; g; b]) colors.

Definition rainbow : list color :=
    [(0xFF, 0, 0); (0, 0xFF, 0); (0, 0, 0xFF)].

  (** The public effect methods. *)
Inductive effect : Type :=
    | Static (r g b : Z)
    | Breathe (colors : list color)
    | Spectrum
    | Wave
    | Pulse (r g b : Z)
    | Morph (colors : list color)
    | Off.

  (** Step 3 of the protocol, with the waits after each send. *)
Definition program (e : effect) : list op :=
    let static r g b :=
      flat_map (fun keys => [Send (chunk_cmd r g b keys); Wait 10])
               (chunks 15 key_indices)
      ++ [Send commit_keys_cmd; Wait 10] in
    let global t tempo colors := [Send (global_cmd t tempo colors); Wait 50] in
    match e with
    | Static r g b => static r g b
    | Breathe colors => global 0x02 0x07 colors
    | Spectrum => global 0x02 0x05 rainbow
    | Wave => global 0x03 0x05 rainbow
    | Pulse r g b => global 0x08 0x07 [(r, g, b)]
    | Morph colors => global 0x02 0x05 colors
    | Off => static 0 0 0
    end.

  (** Steps 1 to 4. *)
Definition script (e : effect) : list op :=
    [Send reset_cmd; Wait 50; Send disable_cmd; Wait 50]
    ++ program e ++ [Send commit_cmd].

  (** The colours of a request are 8-bit triples, at least one and few
      enough for the count byte. *)
Definition effect_ok (e : effect) : Prop :=
    match e with
    | Static r g b | Pulse r g b => color_ok (r, g, b)
    | Breathe colors | Morph colors =>
        Forall color_ok colors /\ (1 <= length colors <= 256)%nat
    | Spectrum | Wave | Off => True
    end.

End KeyboardSpec.

(** The public effect method of the keyboard for each effect kind. *)
Definition keyboard_method (E : env) (e : KeyboardSpec.effect) : M hid unit :=
  match e with
  | KeyboardSpec.Static r g b => Keyboard.static E r g b
  | KeyboardSpec.Breathe colors => Keyboard.breathe E colors
  | KeyboardSpec.Spectrum => Keyboard.spectrum E
  | KeyboardSpec.Wave => Keyboard.wave E
  | KeyboardSpec.Pulse r g b => Keyboard.pulse E r g b
  | KeyboardSpec.Morph colors => Keyboard.morph E colors
  | KeyboardSpec.Off => Keyboard.off E
  end.

(** ** The ring and logo protocol as the specification words it *)

Module TronSpec.

Definition clear_cmd : list Z := [0x21; 0x00; 0x04; 0x00; 0xFF].
Definition start_cmd : list Z := [0x21; 0x00; 0x01; 0x00; 0xFF].
Definition play_cmd : list Z := [0x21; 0x00; 0x03; 0x00; 0xFF].
Definition final_play_cmd : list Z := [0x21; 0x00; 0x05; 0x00; 0xFF].

Definition select_cmd (zones : list Z) : list Z :=
    [0x23; 0x01; 0x00; Z.of_nat (length zones)] ++ zones.
Definition action_cmd (actions : list Z) : list Z := 0x24 :: actions.

Definition remove_cmd (state : Z) : list Z := [0x22; 0x00; 0x04; 0x00; state].
Definition start_new_cmd (state : Z) : list Z :=
    [0x22; 0x00; 0x01; 0x00; state].
Definition save_cmd (state : Z) : list Z := [0x22; 0x00; 0x02; 0x00; state].

  (** The remove/start/select/action/save group of one power state. *)
Definition group (actions zones : list Z) (state : Z) : list (list Z) :=
    [remove_cmd state; start_new_cmd state; select_cmd zones;
     action_cmd actions; save_cmd state].

Definition ring_script (actions zones : list Z) : list op :=
    map Send [clear_cmd; start_cmd; select_cmd zones; action_cmd actions;
              play_cmd].

Definition logo_script (actions zones : list Z) : list op :=
    [Send play_cmd; Wait 50]
    ++ map Send (concat (map (group actions zones)
                             [0x5b; 0x5c; 0x5d; 0x5e; 0x5f; 0x60]))
    ++ [Send final_play_cmd].

Definition morph_block (c : color) : list Z :=
    let '(r, g, b) := c in [0x02; 0x07; 0xCF; 0x00; 0x64; r; g; b].

End TronSpec.

(** ** The command line as the orchestrator reads it *)

Definition recognized (cmd : string) : bool :=
  existsb (String.eqb cmd)
          ["static"; "breathe"; "morph"; "spectrum"; "wave"; "pulse"; "off"].

(** No target flag at all means every target. *)
Definition no_target (argv : list string) : bool :=
  negb (mem "--keyboard" argv || mem "--tron" argv || mem "--ring" argv
        || mem "--logos" argv).

Definition keyboard_targeted (argv : list string) : bool :=
  if no_target argv then true else mem "--keyboard" argv.

Definition ring_targeted (argv : list string) : bool :=
  (if no_target argv then true else mem "--tron" argv) || mem "--ring" argv.

Definition logos_targeted (argv : list string) : bool :=
  (if no_target argv then true else mem "--tron" argv) || mem "--logos" argv.

(** The arguments that are not flags: the command and its colours. *)
Definition positional (argv : list string) : list string :=
  List.filter (fun a => negb (startswith "--" a)) argv.

(** What opening the session of a targeted controller leaves in the trace:
    the open of its device node, or the warning when discovery found
    none. *)
Definition open_events (E : env) (targeted : bool) (device : option string)
           (warning : string) : list event :=
  if targeted then
    if truthy device
    then [Open (default "" device) (new_fd E (default "" device))]
    else [PrintErr warning]
  else [].

(** The session of a controller when the [try] block is entered. *)
Definition session (E : env) (active : bool) (device : option string) : hid :=
  Hid device (if active then Some (new_fd E (default "" device)) else None).

(** The exception that opening the session of a controller raises, if the
    controller is opened at all and [os.open] fails. *)
Definition open_failure (E : env) (active : bool) (device : option string)
  : option exn :=
  if active then open_error E (default "" device) else None.

(** The exception the keyboard close of the [finally] block ends with, if
    the keyboard session is closed there and its driver rebind raises. *)
Definition close_failure (E : env) (kbd_on : bool) (kdev : option string)
  : option exn :=
  if kbd_on then
    match result (Keyboard._rebind E (Hid kdev None)) with
    | inl e => Some e
    | inr _ => None
    end
  else None.

(** What the [finally] block leaves in the trace when it starts from the
    sessions of [session]: the keyboard close with its rebind, then the
    ring/logo close unless the keyboard close raised. *)
Definition close_events (E : env) (kbd_on tron_on : bool)
           (kdev tdev : option string) : list event :=
  (if kbd_on
   then Close (new_fd E (default "" kdev))
        :: trace (Keyboard._rebind E (Hid kdev None))
   else [])
  ++ match close_failure E kbd_on kdev with
     | Some _ => []
     | None => if tron_on then [Close (new_fd E (default "" tdev))] else []
     end.

(** The sessions it leaves behind. *)
Definition closed_world (E : env) (kbd_on tron_on : bool)
           (kdev tdev : option string) : world :=
  World (Hid kdev None)
        match close_failure E kbd_on kdev with
        | Some _ => session E tron_on tdev
        | None => Hid tdev None
        end.

(** [try: ... finally: ...]: an exception of the [finally] block replaces
    the outcome of the body. *)
Definition final_result {A} (failure : option exn) (r : exn + A) : exn + A :=
  match failure with
  | Some e => inl e
  | None => r
  end.



(** Events that talk to an open device, wait or print: everything except
    opening, closing and rebinding. *)
Definition io_only (e : event) : bool :=
  match e with
  | Ioctl _ _ _ | Write _ _ | Sleep _ | Print _ | PrintErr _ => true
  | _ => false
  end.


(** A trace without what it prints on standard output. *)
Definition commands (tr : list event) : list event :=
  List.filter (fun e => match e with Print _ => false | _ => true end) tr.

(** The descriptors a trace closes, in order. *)
Definition closed_fds (tr : list event) : list Z :=
  flat_map (fun e => match e with Close n => [n] | _ => [] end) tr.

(** A computation that leaves the sessions as they are and neither opens,
    closes nor rebinds. *)
Definition quiet {S A} (m : M S A) : Prop :=
  forall s, state (m s) = s /\ Forall (fun e => io_only e = true) (trace (m s)).

(** ** Concrete environments and sessions used in the examples *)

(** A machine without HID devices where nothing fails. *)
Definition quiet_env : env :=
  Env [] (fun _ => 3) (fun _ _ => false)
      (fun _ => None) (fun _ => None) (fun _ => None).

(** An open session on descriptor 3. *)
Definition session3 : hid := Hid (Some "/dev/hidraw0") (Some 3).

(** Nineteen colours: more than a 64-byte keyboard report can carry. *)
Definition nineteen_reds : list color := repeat (0xFF, 0, 0) 19.

(** Four colours: one more than the ring/logo morph action takes. *)
Definition four_colors : list color :=
  [(1, 2, 3); (4, 5, 6); (7, 8, 9); (10, 11, 12)].

Definition line (s : string) : string := s +:+ String "010"%char EmptyString.

(** A laptop with both controllers.  The keyboard shows two HID interfaces;
    the system enumerates the three records in no particular order. *)
Definition laptop_env : env :=
  Env [(uevent_path "hidraw2",
        line "HID_ID=0003:0000187C:00000550"
        +:+ line "HID_PHYS=usb-0000:00:14.0-5/input0");
       (uevent_path "hidraw10",
        line "HID_ID=0003:00000D62:0000BABC"
        +:+ line "HID_PHYS=usb-0000:00:14.0-7/input1");
       (uevent_path "hidraw0",
        line "HID_ID=0003:00000D62:0000BABC"
        +:+ line "HID_PHYS=usb-0000:00:14.0-7/input0")]
      (fun path => if String.eqb path "/dev/hidraw2" then 4 else 3)
      (fun _ _ => false)
      (fun _ => None) (fun _ => None) (fun _ => None).

(** ** Checks over all characters and all bytes *)

Definition all_ascii : list ascii := map ascii_of_nat (seq 0 256).

Definition all_bytes : list Z := map Z.of_nat (seq 0 256).

(** [format_02X v] is two characters, the first one not a hash, that
    [int16] reads back as [v]. *)
Definition two_digits_back (v : Z) : bool :=
  match format_02X v with
  | String x (String y EmptyString) =>
      negb (Ascii.eqb x "#")
      && match int16 (String x (String y EmptyString)) with
         | inr w => w =? v
         | inl _ => false
         end
  | _ => false
  end.

(** The result of [int16] on a slice is a [ValueError] or a number from
    -15 to 255. *)
Definition slice_result_ok (t : string) : bool :=
  match int16 t with
  | inl ValueError => true
  | inl _ => false
  | inr v => (-15 <=? v) && (v <=? 255)
  end.

(** ** What a command asks of the two encoders

    For a recognized command: the keyboard effect, the action bytes for the
    ring and logos, and the line printed at the end; an exception when a
    colour token the command needs does not parse. *)
Definition plan (parse : string -> exn + color) (cmd : string)
           (color_args : list string)
  : option (exn + KeyboardSpec.effect * list Z * string) :=
  let with_first (k : Z -> Z -> Z -> KeyboardSpec.effect * list Z * string) :=
    match first_color_or_default parse color_args with
    | inl e => inl e
    | inr (r, g, b) => inr (k r g b)
    end in
  let with_colors (k : list color -> KeyboardSpec.effect * list Z * string) :=
    match colors_or_default parse color_args with
    | inl e => inl e
    | inr colors => inr (k colors)
    end in
  let rainbow := [(0xFF, 0, 0); (0, 0xFF, 0); (0, 0, 0xFF)] in
  if String.eqb cmd "static" then
    Some (with_first (fun r g b =>
            (KeyboardSpec.Static r g b, Tron._static_action r g b,
             "Static " +:+ hex_color r g b)))
  else if String.eqb cmd "breathe" then
    Some (with_colors (fun colors =>
            (KeyboardSpec.Breathe colors, Tron._morph_actions colors,
             "Breathing with " +:+ str_nat (length colors) +:+ " colors")))
  else if String.eqb cmd "morph" then
    Some (with_colors (fun colors =>
            (KeyboardSpec.Morph colors, Tron._morph_actions colors,
             "Morphing with " +:+ str_nat (length colors) +:+ " colors")))
  else if String.eqb cmd "spectrum" then
    Some (inr (KeyboardSpec.Spectrum, Tron._morph_actions rainbow,
               "Spectrum cycle"))
  else if String.eqb cmd "wave" then
    Some (inr (KeyboardSpec.Wave, Tron._morph_actions rainbow,
               "Rainbow wave"))
  else if String.eqb cmd "pulse" then
    Some (with_first (fun r g b =>
            (KeyboardSpec.Pulse r g b, Tron._pulse_action r g b,
             "Pulsing " +:+ hex_color r g b)))
  else if String.eqb cmd "off" then
    Some (inr (KeyboardSpec.Off, Tron._static_action 0 0 0, "Lights off"))
  else None.




(** The same laptop when the node of the ring/logo controller cannot be
    opened. *)
Definition locked_env : env :=
  Env (uevents laptop_env) (new_fd laptop_env) (fun _ _ => false)
      (fun path => if String.eqb path "/dev/hidraw2"
                   then Some PermissionError else None)
      (fun _ => None) (fun _ => None).

(** * Proofs *)

(** ** The execution monad *)

Lemma outcome_eta {S A} (r : outcome S A) :
  r = Outcome (trace r) (state r) (result r).
Proof. by destruct r. Qed.

Lemma bind_unit_ret {S} (m : M S unit) s : (m ;; ret tt) s = m s.
Proof.
  unfold bind, ret. destruct (m s) as [t s' [e|[]]]; simpl; [done|].
  by rewrite app_nil_r.
Qed.

Lemma bind_assoc {S A B C} (m : M S A) (f : A -> M S B) (g : B -> M S C) s :
  bind (bind m f) g s = bind m (fun a => bind (f a) g) s.
Proof.
  unfold bind. destruct (m s) as [t s' [e|a]]; simpl; [done|].
  destruct (f a s') as [t' s'' [e|b]]; simpl; [done|].
  by rewrite app_assoc.
Qed.

Lemma bind_ext {S A B} (m m' : M S A) (f f' : A -> M S B) s :
  m s = m' s -> (forall a s', f a s' = f' a s') -> bind m f s = bind m' f' s.
Proof.
  intros Hm Hf. unfold bind. rewrite Hm.
  destruct (m' s) as [t s' [e|a]]; simpl; [done|]. by rewrite Hf.
Qed.

(** ** Scripts *)

Section ScriptFacts.
Variable send : list Z -> M hid unit.

Lemma run_script_app a b s :
    run_script send (a ++ b) s = (run_script send a ;; run_script send b) s.
Proof.
    revert s. induction a as [|o a IH]; intros s; simpl.
    - unfold bind, ret. simpl. by destruct (run_script send b s).
    - rewrite bind_assoc. apply bind_ext; [done|]. intros _ s'. apply IH.
Qed.

Lemma refines_eq m a b : refines send m a -> a = b -> refines send m b.
Proof. by intros H <-. Qed.

Lemma refines_ret : refines send (ret tt) [].
Proof. by intros s. Qed.

Lemma refines_send d : refines send (send d) [Send d].
Proof. intros s. simpl. by rewrite bind_unit_ret. Qed.

Lemma refines_sleep ms : refines send (sleep ms) [Wait ms].
Proof. intros s. simpl. by rewrite bind_unit_ret. Qed.

Lemma refines_bind m k a b :
    refines send m a -> refines send k b ->
    refines send (m ;; k) (a ++ b).
Proof.
    intros Hm Hk s. rewrite run_script_app.
    apply bind_ext; [apply Hm|]. intros _ s'. apply Hk.
Qed.

Lemma refines_for {A} (l : list A) f g :
    (forall x, refines send (f x) (g x)) ->
    refines send (for_ l f) (flat_map g l).
Proof.
    intros H. induction l as [|x l IH]; simpl.
    - apply refines_ret.
    - by apply refines_bind.
Qed.

Lemma refines_when (c : bool) m a :
    refines send m a -> refines send (when c m) (if c then a else []).
Proof. destruct c; [done|]. intros _. apply refines_ret. Qed.

End ScriptFacts.

Ltac refine_script :=
  repeat first
    [ apply refines_send
    | apply refines_sleep
    | apply refines_ret
    | apply refines_bind
    | apply refines_for; intros ?
    | apply refines_when ].

(** ** Running a script on a transport *)

Section Transport.
Variable send : list Z -> M hid unit.
Variable wire : hid -> list Z -> list event.

  (** A send leaves the session as it is; it either raises before any
      effect or produces its wire events. *)
Hypothesis send_cases : forall d s,
    (exists e, send d s = Outcome [] s (inl e))
    \/ send d s = Outcome (wire s d) s (inr tt).

Lemma run_script_prefix ops s :
    exists k,
      trace (run_script send ops s) = flat_map (op_events wire s) (firstn k ops)
      /\ state (run_script send ops s) = s
      /\ (result (run_script send ops s) = inr tt -> firstn k ops = ops).
Proof using send_cases.
    induction ops as [|o ops IH]; simpl.
    - exists 0%nat. done.
    - destruct IH as (k & Ht & Hs & Hr). unfold bind.
      destruct o as [d|ms]; simpl.
      + destruct (send_cases d s) as [[e ->]| ->]; simpl.
        * exists 0%nat. done.
        * exists (S k). simpl. rewrite Ht, Hs. split_and!; [done..|].
          intros H. by rewrite Hr.
      + exists (S k). simpl. rewrite Ht, Hs. split_and!; [done..|].
        intros H. by rewrite Hr.
Qed.

Lemma run_script_ok ops s :
    (forall d, In d (payloads ops) -> send d s = Outcome (wire s d) s (inr tt)) ->
    run_script send ops s = Outcome (flat_map (op_events wire s) ops) s (inr tt).
Proof.
    induction ops as [|o ops IH]; simpl; intros H; [done|].
    unfold bind. destruct o as [d|ms]; simpl in *.
    - rewrite (H d) by auto. simpl. rewrite IH by auto. done.
    - rewrite IH by auto. done.
Qed.

End Transport.

Lemma firstn_payloads_prefix k ops :
  payloads (firstn k ops) `prefix_of` payloads ops.
Proof.
  rewrite <- (firstn_skipn k ops) at 2. unfold payloads.
  rewrite flat_map_app. by apply prefix_app_r.
Qed.

Lemma times_zero_pad (size : Z) (d : list Z) :
  times 0 (size - 1 - len d) = repeat 0 (Z.to_nat size - 1 - length d)%nat.
Proof. unfold times, len. f_equal. lia. Qed.

Lemma is_byte_spec b : is_byte b = true <-> 0 <= b < 256.
Proof. unfold is_byte. rewrite andb_true_iff, Z.leb_le, Z.ltb_lt. done. Qed.

Lemma bytes_inr l : bytes_ok l -> bytes l = inr l.
Proof.
  intros H. unfold bytes.
  assert (forallb is_byte l = true) as ->; [|done].
  apply forallb_forall. intros b Hb. apply is_byte_spec.
  unfold bytes_ok in H. rewrite List.Forall_forall in H. auto.
Qed.

Lemma bytes_inv l r : bytes l = inr r -> r = l /\ bytes_ok l.
Proof.
  unfold bytes. destruct (forallb is_byte l) eqn:H; [|done].
  intros [= <-]. split; [done|].
  apply List.Forall_forall. intros b Hb. apply is_byte_spec.
  rewrite forallb_forall in H. auto.
Qed.

Lemma bytes_ok_frame rid size d :
  0 <= rid < 256 -> bytes_ok d -> bytes_ok (frame rid size d).
Proof.
  intros Hr Hd. unfold frame, bytes_ok. constructor; [done|].
  apply Forall_app. split; [done|].
  apply List.Forall_forall. intros b Hb. apply repeat_spec in Hb. lia.
Qed.

Lemma frame_length rid size d :
  (length d < size)%nat -> length (frame rid size d) = size.
Proof.
  intros H. unfold frame. simpl. rewrite length_app, repeat_length. lia.
Qed.

Lemma frame_overflow rid size d :
  (size <= S (length d))%nat -> frame rid size d = rid :: d.
Proof.
  intros H. unfold frame.
  replace (size - 1 - length d)%nat with 0%nat by lia. simpl.
  by rewrite app_nil_r.
Qed.

(** ** The two transports *)

Lemma keyboard_wire_frame d :
  [0xCC] ++ d ++ times 0 (64 - 1 - len d) = frame 0xCC 64 d.
Proof. unfold frame. simpl. f_equal. f_equal. apply (times_zero_pad 64). Qed.

Lemma tron_wire_frame d :
  [0x03] ++ d ++ times 0 (33 - 1 - len d) = frame 0x03 33 d.
Proof. unfold frame. simpl. f_equal. f_equal. apply (times_zero_pad 33). Qed.

Lemma keyboard_send_ok E d s n :
  fd s = Some n -> bytes_ok d -> refuses E n (frame 0xCC 64 d) = false ->
  Keyboard._send E d s = Outcome (kbd_wire s d) s (inr tt).
Proof.
  intros Hfd Hd Hr. unfold Keyboard._send, kbd_wire.
  rewrite keyboard_wire_frame, bytes_inr by (by apply bytes_ok_frame).
  unfold bind, lift_exn, ret, get, fcntl_ioctl. simpl.
  rewrite Hfd. simpl. by rewrite Hr.
Qed.

Lemma keyboard_send_cases E d s :
  (exists e, Keyboard._send E d s = Outcome [] s (inl e))
  \/ Keyboard._send E d s = Outcome (kbd_wire s d) s (inr tt).
Proof.
  unfold Keyboard._send, kbd_wire. rewrite keyboard_wire_frame.
  unfold bind, lift_exn, ret, raise, get, fcntl_ioctl, emit.
  destruct (bytes (frame 0xCC 64 d)) as [e|pkt] eqn:Hb; simpl; [eauto|].
  apply bytes_inv in Hb as [-> _].
  destruct (fd s) as [n|]; simpl; [|eauto].
  destruct (refuses E n (frame 0xCC 64 d)); simpl; eauto.
Qed.

Lemma tron_send_ok E d s n :
  fd s = Some n -> bytes_ok d -> refuses E n (frame 0x03 33 d) = false ->
  Tron._send E d s = Outcome (tron_wire s d) s (inr tt).
Proof.
  intros Hfd Hd Hr. unfold Tron._send, tron_wire.
  rewrite tron_wire_frame, bytes_inr by (by apply bytes_ok_frame).
  unfold bind, lift_exn, ret, get, os_write, sleep. simpl.
  rewrite Hfd. simpl. by rewrite Hr.
Qed.

Lemma tron_send_cases E d s :
  (exists e, Tron._send E d s = Outcome [] s (inl e))
  \/ Tron._send E d s = Outcome (tron_wire s d) s (inr tt).
Proof.
  unfold Tron._send, tron_wire. rewrite tron_wire_frame.
  unfold bind, lift_exn, ret, raise, get, os_write, sleep, emit.
  destruct (bytes (frame 0x03 33 d)) as [e|pkt] eqn:Hb; simpl; [eauto|].
  apply bytes_inv in Hb as [-> _].
  destruct (fd s) as [n|]; simpl; [|eauto].
  destruct (refuses E n (frame 0x03 33 d)); simpl; eauto.
Qed.

Lemma sent_app a b : sent (a ++ b) = sent a ++ sent b.
Proof. unfold sent. apply flat_map_app. Qed.

Lemma sent_kbd_script s n ops :
  fd s = Some n ->
  sent (flat_map (op_events kbd_wire s) ops)
  = map (frame 0xCC 64) (payloads ops).
Proof.
  intros Hfd. induction ops as [|[d|ms] ops IH]; simpl; [done|..].
  - unfold kbd_wire at 1. rewrite Hfd. simpl. by rewrite IH.
  - done.
Qed.

Lemma sent_tron_script s n ops :
  fd s = Some n ->
  sent (flat_map (op_events tron_wire s) ops)
  = map (frame 0x03 33) (payloads ops).
Proof.
  intros Hfd. induction ops as [|[d|ms] ops IH]; simpl; [done|..].
  - unfold tron_wire at 1. rewrite Hfd. simpl. by rewrite IH.
  - done.
Qed.

Lemma sent_closed_script wire s ops :
  (forall d, wire s d = []) ->
  sent (flat_map (op_events wire s) ops) = [].
Proof.
  intros Hw. induction ops as [|[d|ms] ops IH]; simpl; [done|..].
  - by rewrite Hw.
  - done.
Qed.

Lemma keyboard_script_prefix E m ops s :
  refines (Keyboard._send E) m ops ->
  sent (trace (m s)) `prefix_of` map (frame 0xCC 64) (payloads ops)
  /\ state (m s) = s.
Proof.
  intros Hm. rewrite (Hm s).
  destruct (run_script_prefix _ _ (keyboard_send_cases E) ops s)
    as (k & -> & -> & _).
  split; [|done]. destruct (fd s) as [n|] eqn:Hfd.
  - rewrite (sent_kbd_script s n) by done.
    destruct (firstn_payloads_prefix k ops) as [rest ->].
    rewrite map_app. by apply prefix_app_r.
  - rewrite sent_closed_script; [apply prefix_nil|].
    intros d. unfold kbd_wire. by rewrite Hfd.
Qed.

Lemma keyboard_script_ok E m ops s n :
  refines (Keyboard._send E) m ops ->
  fd s = Some n -> Forall bytes_ok (payloads ops) ->
  (forall buf, refuses E n buf = false) ->
  m s = Outcome (flat_map (op_events kbd_wire s) ops) s (inr tt).
Proof.
  intros Hm Hfd Hb Hr. rewrite (Hm s). apply run_script_ok.
  intros d Hd. apply (keyboard_send_ok E d s n); [done| |done].
  rewrite List.Forall_forall in Hb. auto.
Qed.

Lemma tron_script_prefix E m ops s :
  refines (Tron._send E) m ops ->
  sent (trace (m s)) `prefix_of` map (frame 0x03 33) (payloads ops)
  /\ state (m s) = s.
Proof.
  intros Hm. rewrite (Hm s).
  destruct (run_script_prefix _ _ (tron_send_cases E) ops s)
    as (k & -> & -> & _).
  split; [|done]. destruct (fd s) as [n|] eqn:Hfd.
  - rewrite (sent_tron_script s n) by done.
    destruct (firstn_payloads_prefix k ops) as [rest ->].
    rewrite map_app. by apply prefix_app_r.
  - rewrite sent_closed_script; [apply prefix_nil|].
    intros d. unfold tron_wire. by rewrite Hfd.
Qed.

Lemma tron_script_ok E m ops s n :
  refines (Tron._send E) m ops ->
  fd s = Some n -> Forall bytes_ok (payloads ops) ->
  (forall buf, refuses E n buf = false) ->
  m s = Outcome (flat_map (op_events tron_wire s) ops) s (inr tt).
Proof.
  intros Hm Hfd Hb Hr. rewrite (Hm s). apply run_script_ok.
  intros d Hd. apply (tron_send_ok E d s n); [done| |done].
  rewrite List.Forall_forall in Hb. auto.
Qed.

(** ** Payload builders *)

Lemma fold_left_extend {A B} (step : list A -> B -> list A)
      (f : B -> list A) (l : list B) (init : list A) :
  (forall data x, step data x = data ++ f x) ->
  fold_left step l init = init ++ flat_map f l.
Proof.
  intros Hstep. revert init. induction l as [|x l IH]; intros init; simpl.
  - by rewrite app_nil_r.
  - by rewrite IH, Hstep, <- app_assoc.
Qed.

Lemma global_effect_data_spec t tempo colors :
  Keyboard.global_effect_data t tempo colors
  = KeyboardSpec.global_cmd t tempo colors.
Proof.
  unfold Keyboard.global_effect_data, KeyboardSpec.global_cmd.
  rewrite (fold_left_extend _ (fun '(r, g, b) => [r; g; b]));
    [done|]. by intros data [[r g] b].
Qed.

Lemma morph_actions_spec colors :
  Tron._morph_actions colors
  = flat_map TronSpec.morph_block (firstn 3 colors).
Proof.
  unfold Tron._morph_actions.
  rewrite (fold_left_extend _ TronSpec.morph_block); [done|].
  by intros data [[r g] b].
Qed.

(** ** Every encoder method runs its script *)

Lemma keyboard_method_refines E e :
  refines (Keyboard._send E) (keyboard_method E e) (KeyboardSpec.script e).
Proof.
  destruct e as [r g b|colors| | |r g b|colors|]; simpl;
    (eapply refines_eq;
     [ unfold Keyboard.off, Keyboard.static, Keyboard.breathe,
         Keyboard.spectrum, Keyboard.wave, Keyboard.pulse, Keyboard.morph,
         Keyboard._reset, Keyboard._disable_effect, Keyboard._set_all_keys,
         Keyboard._global_effect, Keyboard._commit;
       rewrite ?global_effect_data_spec; refine_script
     | try (vm_compute; reflexivity) ]).
  all: reflexivity.
Qed.

Lemma set_ring_refines E actions zones :
  refines (Tron._send E) (Tron._set_ring E actions zones)
    (TronSpec.ring_script actions (default Tron.RING_ZONES zones)).
Proof.
  eapply refines_eq; [unfold Tron._set_ring; refine_script|].
  destruct zones; reflexivity.
Qed.

Lemma set_logos_refines E actions zones :
  refines (Tron._send E) (Tron._set_logos E actions zones)
    (TronSpec.logo_script actions (default Tron.LOGO_ZONES zones)).
Proof.
  eapply refines_eq; [unfold Tron._set_logos; refine_script|].
  destruct zones; reflexivity.
Qed.

(** ** Framing of the two transports *)

(** C6. A payload of at most 63 bytes goes to the keyboard as a 64-byte
    buffer (report id 0xCC, the payload, zeros) through one set-feature
    ioctl whose request number carries the size 64; a payload of at most 32
    bytes goes to the ring/logo controller as a 33-byte buffer (report id
    0x03, the payload, zeros) through one plain write, followed by a sleep of
    20 ms. *)
Theorem transport_framing (E : env) (s : hid) (n : Z) (data : list Z) :
  fd s = Some n ->
  bytes_ok data ->
  (forall buf, refuses E n buf = false) ->
  ((length data <= 63)%nat ->
   let pkt := 0xCC :: data ++ repeat 0 (63 - length data) in
   Keyboard._send E data s
   = Outcome [Ioctl n (HIDIOCSFEATURE 64) pkt] s (inr tt)
   /\ length pkt = 64%nat)
  /\ ((length data <= 32)%nat ->
      let pkt := 0x03 :: data ++ repeat 0 (32 - length data) in
      Tron._send E data s = Outcome [Write n pkt; Sleep 20] s (inr tt)
      /\ length pkt = 33%nat)
  /\ HIDIOCSFEATURE 64 = 0xC0404806
  /\ Z.land (Z.shiftr (HIDIOCSFEATURE 64) 16) 0x3FFF = 64.
Proof.
  intros Hfd Hd Hr. split_and!; [| |done..].
  - intros Hlen pkt.
    rewrite (keyboard_send_ok E data s n) by done.
    unfold kbd_wire. rewrite Hfd. split; [done|].
    apply (frame_length 0xCC 64). lia.
  - intros Hlen pkt.
    rewrite (tron_send_ok E data s n) by done.
    unfold tron_wire. rewrite Hfd. split; [done|].
    apply (frame_length 0x03 33). lia.
Qed.

Lemma transport_framing_witness :
  fd session3 = Some 3
  /\ bytes_ok [0x8b; 0x01; 0xFF]
  /\ (forall buf, refuses quiet_env 3 buf = false)
  /\ Keyboard._send quiet_env [0x8b; 0x01; 0xFF] session3
     = Outcome [Ioctl 3 0xC0404806 (0xCC :: [0x8b; 0x01; 0xFF] ++ repeat 0 60)] session3 (inr tt).
Proof.
  assert (H1 : fd session3 = Some 3)
    by reflexivity.
  assert (H2 : bytes_ok [0x8b; 0x01; 0xFF])
    by (repeat constructor; lia).
  assert (H3 : forall buf, refuses quiet_env 3 buf = false)
    by reflexivity.
  split_and!; [done..|].
  apply (transport_framing quiet_env _ 3 [0x8b; 0x01; 0xFF] H1 H2 H3).
  simpl. lia.
Defined.

(** ** Keyboard payloads are bytes *)

Lemma flat_map_bytes_ok {A} (f : A -> list Z) (l : list A) :
  (forall x, In x l -> bytes_ok (f x)) -> bytes_ok (flat_map f l).
Proof.
  intros H. induction l as [|x l IH]; simpl; [constructor|].
  apply Forall_app. split; [apply H; by left|].
  apply IH. intros y Hy. apply H. by right.
Qed.

Lemma chunk_cmd_bytes_ok r g b keys :
  color_ok (r, g, b) -> Forall (fun k => 0 <= k < 255) keys ->
  bytes_ok (KeyboardSpec.chunk_cmd r g b keys).
Proof.
  intros (Hr & Hg & Hb) Hk. unfold KeyboardSpec.chunk_cmd.
  apply Forall_app. split; [repeat constructor; lia|].
  apply flat_map_bytes_ok. intros k Hin.
  rewrite List.Forall_forall in Hk. specialize (Hk k Hin).
  repeat constructor; lia.
Qed.

Lemma global_cmd_bytes_ok t tempo colors :
  0 <= t < 256 -> 0 <= tempo < 256 ->
  Forall color_ok colors -> (1 <= length colors <= 256)%nat ->
  bytes_ok (KeyboardSpec.global_cmd t tempo colors).
Proof.
  intros Ht Htempo Hc Hlen. unfold KeyboardSpec.global_cmd.
  apply Forall_app. split; [repeat constructor; lia|].
  apply flat_map_bytes_ok. intros [[r g] b] Hin.
  rewrite List.Forall_forall in Hc. destruct (Hc _ Hin) as (Hr & Hg & Hb).
  repeat constructor; lia.
Qed.

Lemma key_chunks_in_range :
  Forall (Forall (fun k => 0 <= k < 255))
         (chunks 15 KeyboardSpec.key_indices).
Proof.
  apply List.Forall_forall. intros keys Hkeys.
  apply List.Forall_forall. intros k Hk.
  assert (forallb (forallb (fun k => (0 <=? k) && (k <? 255)))
                  (chunks 15 KeyboardSpec.key_indices) = true) as Hall
    by (vm_compute; reflexivity).
  rewrite forallb_forall in Hall. specialize (Hall keys Hkeys).
  rewrite forallb_forall in Hall. specialize (Hall k Hk).
  apply andb_true_iff in Hall as [H1 H2].
  apply Z.leb_le in H1. apply Z.ltb_lt in H2. lia.
Qed.

Lemma static_payloads r g b :
  payloads (KeyboardSpec.script (KeyboardSpec.Static r g b))
  = [0x94] :: [0x80; 0x01; 0xFE; 0x00; 0x00; 0x01; 0x01; 0x01]
    :: map (KeyboardSpec.chunk_cmd r g b) (chunks 15 KeyboardSpec.key_indices)
    ++ [[0x8C; 0x13]; [0x8B; 0x01; 0xFF]].
Proof. vm_compute. reflexivity. Qed.

Lemma static_payloads_ok r g b :
  color_ok (r, g, b) ->
  Forall bytes_ok (payloads (KeyboardSpec.script (KeyboardSpec.Static r g b))).
Proof.
  intros Hc. rewrite static_payloads.
  constructor; [repeat constructor; lia|].
  constructor; [repeat constructor; lia|].
  apply Forall_app. split; [|repeat constructor; lia].
  apply List.Forall_map. 
  eapply List.Forall_impl; [|apply key_chunks_in_range].
  intros keys Hk. by apply chunk_cmd_bytes_ok.
Qed.

Lemma global_payloads_ok t tempo colors :
  0 <= t < 256 -> 0 <= tempo < 256 ->
  Forall color_ok colors -> (1 <= length colors <= 256)%nat ->
  Forall bytes_ok
    [[0x94]; [0x80; 0x01; 0xFE; 0x00; 0x00; 0x01; 0x01; 0x01];
     KeyboardSpec.global_cmd t tempo colors; [0x8B; 0x01; 0xFF]].
Proof.
  intros Ht Htempo Hc Hlen.
  repeat (constructor; [first [by apply global_cmd_bytes_ok
                              | repeat constructor; lia]|]).
  constructor.
Qed.

Lemma effect_payloads_ok e :
  KeyboardSpec.effect_ok e ->
  Forall bytes_ok (payloads (KeyboardSpec.script e)).
Proof.
  destruct e as [r g b|colors| | |r g b|colors|]; simpl.
  - apply static_payloads_ok.
  - intros [Hc Hlen]. by apply global_payloads_ok.
  - intros _. apply global_payloads_ok; [lia..| |simpl; lia].
    repeat (constructor; [simpl; lia|]). constructor.
  - intros _. apply global_payloads_ok; [lia..| |simpl; lia].
    repeat (constructor; [simpl; lia|]). constructor.
  - intros Hc. apply global_payloads_ok; [lia..| |simpl; lia].
    constructor; [exact Hc|constructor].
  - intros [Hc Hlen]. by apply global_payloads_ok.
  - intros _. apply (static_payloads_ok 0 0 0). repeat split; lia.
Qed.

Lemma script_payloads e :
  payloads (KeyboardSpec.script e)
  = [0x94] :: [0x80; 0x01; 0xFE; 0x00; 0x00; 0x01; 0x01; 0x01]
    :: payloads (KeyboardSpec.program e) ++ [[0x8B; 0x01; 0xFF]].
Proof.
  unfold KeyboardSpec.script, payloads. simpl.
  by rewrite flat_map_app.
Qed.

(** ** The fixed envelope of every keyboard effect *)

(** C5. Every public effect method of the keyboard is the program that
    sends reset, then disable-effect, then the payloads of its effect, then
    commit.  Whatever happens, the buffers it has handed to the device are
    an initial part of that sequence, so nothing specific to the effect goes
    out before reset and disable-effect; on an open session that accepts
    every write, with well-formed colours, the whole sequence goes out and
    commit is its last command. *)
Theorem keyboard_effect_envelope (E : env) (e : KeyboardSpec.effect)
        (s : hid) :
  let run := keyboard_method E e s in
  let expected :=
    [0x94] :: [0x80; 0x01; 0xFE; 0x00; 0x00; 0x01; 0x01; 0x01]
    :: payloads (KeyboardSpec.program e) ++ [[0x8B; 0x01; 0xFF]] in
  refines (Keyboard._send E) (keyboard_method E e)
    ([Send [0x94]; Wait 50;
      Send [0x80; 0x01; 0xFE; 0x00; 0x00; 0x01; 0x01; 0x01]; Wait 50]
     ++ KeyboardSpec.program e ++ [Send [0x8B; 0x01; 0xFF]])
  /\ sent (trace run) `prefix_of` map (frame 0xCC 64) expected
  /\ (forall n,
        fd s = Some n ->
        KeyboardSpec.effect_ok e ->
        (forall buf, refuses E n buf = false) ->
        result run = inr tt
        /\ sent (trace run) = map (frame 0xCC 64) expected).
Proof.
  intros run expected. subst run expected.
  pose proof (keyboard_method_refines E e) as Href.
  split_and!.
  - exact Href.
  - rewrite <- script_payloads.
    by apply (keyboard_script_prefix E _ _ s Href).
  - intros n Hfd Hok Hr.
    rewrite (keyboard_script_ok E _ _ s n Href Hfd
               (effect_payloads_ok e Hok) Hr).
    split; [done|]. cbn [trace].
    rewrite (sent_kbd_script s n) by done.
    by rewrite script_payloads.
Qed.

Lemma keyboard_effect_envelope_witness :
  fd session3 = Some 3
  /\ KeyboardSpec.effect_ok (KeyboardSpec.Pulse 0xFF 0x14 0x93)
  /\ (forall buf, refuses quiet_env 3 buf = false)
  /\ result (Keyboard.pulse quiet_env 0xFF 0x14 0x93 session3) = inr tt
  /\ sent (trace (Keyboard.pulse quiet_env 0xFF 0x14 0x93 session3))
     = map (frame 0xCC 64)
         [[0x94]; [0x80; 0x01; 0xFE; 0x00; 0x00; 0x01; 0x01; 0x01];
          [0x80; 0x08; 0x07; 0x00; 0x00; 0x01; 0x01; 0x01; 0x00;
           0xFF; 0x14; 0x93];
          [0x8B; 0x01; 0xFF]].
Proof.
  assert (H1 : fd session3 = Some 3) by reflexivity.
  assert (H2 : KeyboardSpec.effect_ok (KeyboardSpec.Pulse 0xFF 0x14 0x93))
    by (simpl; lia).
  assert (H3 : forall buf, refuses quiet_env 3 buf = false) by reflexivity.
  destruct (keyboard_effect_envelope quiet_env
              (KeyboardSpec.Pulse 0xFF 0x14 0x93) session3)
    as (_ & _ & Hrun).
  destruct (Hrun 3 H1 H2 H3) as [Hres Hsent].
  split_and!; [done..|exact Hres|exact Hsent].
Defined.

(** ** Static keyboard programming *)

Lemma quad_length (f : Z -> Z) (r g b : Z) (keys : list Z) :
  length (flat_map (fun k => [f k; r; g; b]) keys) = (4 * length keys)%nat.
Proof. induction keys as [|k keys IH]; simpl; lia. Qed.

(** C3. Static programming sends the 0x88 key indices in ceil(136/15) = 10
    chunk commands; the chunk of [keys] is [0x8C, 0x02, 0x00] followed by
    [k + 1, r, g, b] for each source index [k], so it has 3 + 4 * chunkSize
    bytes; then come exactly one commit-keys command and exactly one final
    commit. *)
Theorem static_keyboard_chunks (E : env) (s : hid) (n r g b : Z) :
  fd s = Some n ->
  color_ok (r, g, b) ->
  (forall buf, refuses E n buf = false) ->
  let chunk keys :=
    [0x8C; 0x02; 0x00] ++ flat_map (fun k => [k + 1; r; g; b]) keys in
  let groups := chunks 15 KeyboardSpec.key_indices in
  let cmds :=
    [[0x94]; [0x80; 0x01; 0xFE; 0x00; 0x00; 0x01; 0x01; 0x01]]
    ++ map chunk groups ++ [[0x8C; 0x13]; [0x8B; 0x01; 0xFF]] in
  result (Keyboard.static E r g b s) = inr tt
  /\ sent (trace (Keyboard.static E r g b s)) = map (frame 0xCC 64) cmds
  /\ length groups = 10%nat
  /\ Z.of_nat (length groups) = (0x88 + 15 - 1) / 15
  /\ concat groups = KeyboardSpec.key_indices
  /\ length KeyboardSpec.key_indices = 136%nat
  /\ Forall (fun keys =>
               (length keys <= 15)%nat
               /\ length (chunk keys) = (3 + 4 * length keys)%nat) groups
  /\ count_occ (List.list_eq_dec Z.eq_dec) cmds [0x8C; 0x13] = 1%nat
  /\ count_occ (List.list_eq_dec Z.eq_dec) cmds [0x8B; 0x01; 0xFF] = 1%nat.
Proof.
  intros Hfd Hc Hr chunk groups cmds.
  pose proof (keyboard_method_refines E (KeyboardSpec.Static r g b)) as Href.
  simpl in Href.
  split_and!.
  - by rewrite (keyboard_script_ok E _ _ s n Href Hfd
                  (static_payloads_ok r g b Hc) Hr).
  - rewrite (keyboard_script_ok E _ _ s n Href Hfd
               (static_payloads_ok r g b Hc) Hr).
    cbn [trace]. rewrite (sent_kbd_script s n) by done.
    by rewrite static_payloads.
  - reflexivity.
  - reflexivity.
  - reflexivity.
  - reflexivity.
  - apply List.Forall_forall. intros keys Hin. split.
    + assert (forallb (fun keys => length keys <=? 15)%nat groups = true)
        as Hall by (vm_compute; reflexivity).
      rewrite forallb_forall in Hall. apply Nat.leb_le. auto.
    + subst chunk. cbv beta. rewrite length_app.
      rewrite (quad_length (fun k => k + 1) r g b). simpl. lia.
  - vm_compute. reflexivity.
  - vm_compute. reflexivity.
Qed.

Lemma static_keyboard_chunks_witness :
  fd session3 = Some 3
  /\ color_ok (0xFF, 0x14, 0x93)
  /\ (forall buf, refuses quiet_env 3 buf = false)
  /\ length (sent (trace (Keyboard.static quiet_env 0xFF 0x14 0x93 session3)))
     = 14%nat.
Proof.
  assert (H1 : fd session3 = Some 3) by reflexivity.
  assert (H2 : color_ok (0xFF, 0x14, 0x93)) by (simpl; lia).
  assert (H3 : forall buf, refuses quiet_env 3 buf = false) by reflexivity.
  destruct (static_keyboard_chunks quiet_env session3 3 0xFF 0x14 0x93
              H1 H2 H3) as (_ & Hsent & _).
  split_and!; [done..|]. rewrite Hsent. reflexivity.
Defined.

(** ** The keyboard frame size is not enforced *)

Lemma global_cmd_length t tempo colors :
  length (KeyboardSpec.global_cmd t tempo colors)
  = (9 + 3 * length colors)%nat.
Proof.
  unfold KeyboardSpec.global_cmd. rewrite length_app. simpl.
  induction colors as [|[[r g] b] colors IH]; simpl in *; lia.
Qed.

(** C9. [Keyboard._send] never checks the length of its payload.  Up to 63
    bytes the buffer it builds has 64 bytes.  A global effect with 19 or
    more colours, which [breathe] accepts, has a payload of 9 + 3 * count
    bytes: the zero padding is empty, the buffer is longer than 64 bytes,
    and it is still passed to the ioctl whose request is sized for 64. *)
Theorem keyboard_frame_size_not_enforced (E : env) (s : hid) (n : Z) :
  fd s = Some n ->
  (forall buf, refuses E n buf = false) ->
  (forall data,
     bytes_ok data -> (length data <= 63)%nat ->
     exists pkt,
       Keyboard._send E data s
       = Outcome [Ioctl n (HIDIOCSFEATURE 64) pkt] s (inr tt)
       /\ length pkt = 64%nat)
  /\ (forall colors,
        Forall color_ok colors -> (19 <= length colors <= 256)%nat ->
        let data := Keyboard.global_effect_data 0x02 0x07 colors in
        length data = (9 + 3 * length colors)%nat
        /\ times 0 (64 - 1 - len data) = []
        /\ (64 < length (0xCC%Z :: data))%nat
        /\ trace (Keyboard.breathe E colors s)
           = [Ioctl n (HIDIOCSFEATURE 64) (frame 0xCC 64 [0x94]);
              Sleep 50;
              Ioctl n (HIDIOCSFEATURE 64)
                (frame 0xCC 64
                   [0x80; 0x01; 0xFE; 0x00; 0x00; 0x01; 0x01; 0x01]);
              Sleep 50;
              Ioctl n (HIDIOCSFEATURE 64) (0xCC :: data);
              Sleep 50;
              Ioctl n (HIDIOCSFEATURE 64) (frame 0xCC 64 [0x8B; 0x01; 0xFF])]).
Proof.
  intros Hfd Hr. split.
  - intros data Hd Hlen. eexists. split.
    + rewrite (keyboard_send_ok E data s n) by done.
      unfold kbd_wire. by rewrite Hfd.
    + apply frame_length. lia.
  - intros colors Hc Hlen data. subst data.
    rewrite global_effect_data_spec.
    pose proof (global_cmd_length 0x02 0x07 colors) as Hdata.
    split_and!.
    + done.
    + unfold times, len. rewrite Hdata.
      replace (Z.to_nat _) with 0%nat by lia. done.
    + change (64 < S (length (KeyboardSpec.global_cmd 0x02 0x07 colors)))%nat.
      lia.
    + pose proof (keyboard_method_refines E (KeyboardSpec.Breathe colors))
        as Href. simpl in Href.
      assert (KeyboardSpec.effect_ok (KeyboardSpec.Breathe colors)) as Hok
        by (simpl; split; [done|lia]).
      rewrite (keyboard_script_ok E _ _ s n Href Hfd
                 (effect_payloads_ok _ Hok) Hr).
      cbn [trace]. simpl. unfold kbd_wire. rewrite Hfd.
      rewrite (frame_overflow 0xCC 64 (KeyboardSpec.global_cmd _ _ _))
        by lia.
      done.
Qed.

Lemma keyboard_frame_size_not_enforced_witness :
  fd session3 = Some 3
  /\ (forall buf, refuses quiet_env 3 buf = false)
  /\ Forall color_ok nineteen_reds
  /\ (19 <= length nineteen_reds <= 256)%nat
  /\ length (0xCC :: Keyboard.global_effect_data 0x02 0x07 nineteen_reds)
     = 67%nat
  /\ In (Ioctl 3 (HIDIOCSFEATURE 64)
           (0xCC :: Keyboard.global_effect_data 0x02 0x07 nineteen_reds))
        (trace (Keyboard.breathe quiet_env nineteen_reds session3)).
Proof.
  assert (H1 : fd session3 = Some 3) by reflexivity.
  assert (H2 : forall buf, refuses quiet_env 3 buf = false) by reflexivity.
  assert (H3 : Forall color_ok nineteen_reds)
    by (repeat (constructor; [simpl; lia|]); constructor).
  assert (H4 : (19 <= length nineteen_reds <= 256)%nat) by (simpl; lia).
  destruct (keyboard_frame_size_not_enforced quiet_env session3 3 H1 H2)
    as [_ Hbig].
  destruct (Hbig nineteen_reds H3 H4) as (_ & _ & _ & Htrace).
  repeat (split; [first [exact H1|exact H2|exact H3|exact H4|reflexivity]|]).
  rewrite Htrace. simpl. tauto.
Defined.

(** ** Logo programming *)

Lemma bytes_ok_check l : forallb is_byte l = true -> bytes_ok l.
Proof.
  intros H. apply List.Forall_forall. intros b Hb. apply is_byte_spec.
  rewrite forallb_forall in H. auto.
Qed.

Lemma logo_payloads actions zones :
  payloads (TronSpec.logo_script actions zones)
  = [TronSpec.play_cmd]
    ++ concat (map (TronSpec.group actions zones) Tron.POWER_STATES)
    ++ [TronSpec.final_play_cmd].
Proof. reflexivity. Qed.

Lemma logo_payloads_ok actions zones :
  bytes_ok actions -> bytes_ok zones -> (length zones <= 255)%nat ->
  Forall bytes_ok (payloads (TronSpec.logo_script actions zones)).
Proof.
  intros Ha Hz Hlen.
  assert (bytes_ok (TronSpec.select_cmd zones)) as Hsel.
  { unfold TronSpec.select_cmd. apply Forall_app. split; [|done].
    repeat constructor; lia. }
  assert (bytes_ok (TronSpec.action_cmd actions)) as Hact.
  { constructor; [lia|done]. }
  rewrite logo_payloads. simpl.
  repeat (constructor; [first [exact Hsel | exact Hact
                              | repeat constructor; lia]|]).
  constructor.
Qed.

(** C2. Whatever the action bytes and the zones, [Tron._set_logos] is the
    program that, after committing a pending animation, sends one
    remove/start/select/action/save group per power state, for the 6 power
    states in their fixed order, and then one final play command; it sends
    nothing else.  The buffers written are always an initial part of that
    sequence, and the whole of it when every command is accepted. *)
Theorem logo_programming_groups (E : env) (actions : list Z)
        (zones : option (list Z)) (s : hid) :
  let zs := default Tron.LOGO_ZONES zones in
  let group state :=
    [[0x22; 0x00; 0x04; 0x00; state];
     [0x22; 0x00; 0x01; 0x00; state];
     [0x23; 0x01; 0x00; Z.of_nat (length zs)] ++ zs;
     0x24 :: actions;
     [0x22; 0x00; 0x02; 0x00; state]] in
  let groups := map group Tron.POWER_STATES in
  let cmds :=
    [[0x21; 0x00; 0x03; 0x00; 0xFF]] ++ concat groups
    ++ [[0x21; 0x00; 0x05; 0x00; 0xFF]] in
  let run := Tron._set_logos E actions zones s in
  refines (Tron._send E) (Tron._set_logos E actions zones)
    ([Send [0x21; 0x00; 0x03; 0x00; 0xFF]; Wait 50]
     ++ map Send (concat groups)
     ++ [Send [0x21; 0x00; 0x05; 0x00; 0xFF]])
  /\ Tron.POWER_STATES = [0x5b; 0x5c; 0x5d; 0x5e; 0x5f; 0x60]
  /\ length groups = 6%nat
  /\ count_occ (List.list_eq_dec Z.eq_dec) cmds
       [0x21; 0x00; 0x05; 0x00; 0xFF] = 1%nat
  /\ sent (trace run) `prefix_of` map (frame 0x03 33) cmds
  /\ (forall n,
        fd s = Some n ->
        bytes_ok actions -> bytes_ok zs -> (length zs <= 255)%nat ->
        (forall buf, refuses E n buf = false) ->
        result run = inr tt
        /\ sent (trace run) = map (frame 0x03 33) cmds).
Proof.
  intros zs group groups cmds run. subst run.
  pose proof (set_logos_refines E actions zones) as Href.
  split_and!.
  - exact Href.
  - reflexivity.
  - reflexivity.
  - subst cmds groups group. vm_compute. reflexivity.
  - apply (tron_script_prefix E _ _ s Href).
  - intros n Hfd Ha Hz Hlen Hr.
    rewrite (tron_script_ok E _ _ s n Href Hfd
               (logo_payloads_ok actions zs Ha Hz Hlen) Hr).
    split; [done|]. cbn [trace].
    by rewrite (sent_tron_script s n).
Qed.

Lemma logo_programming_groups_witness :
  fd session3 = Some 3
  /\ bytes_ok (Tron._static_action 0xFF 0x14 0x93)
  /\ bytes_ok Tron.LOGO_ZONES
  /\ (length Tron.LOGO_ZONES <= 255)%nat
  /\ (forall buf, refuses quiet_env 3 buf = false)
  /\ length (sent (trace (Tron._set_logos quiet_env
                            (Tron._static_action 0xFF 0x14 0x93) None
                            session3))) = 32%nat.
Proof.
  assert (H1 : fd session3 = Some 3) by reflexivity.
  assert (H2 : bytes_ok (Tron._static_action 0xFF 0x14 0x93))
    by (apply bytes_ok_check; reflexivity).
  assert (H3 : bytes_ok Tron.LOGO_ZONES)
    by (apply bytes_ok_check; reflexivity).
  assert (H4 : (length Tron.LOGO_ZONES <= 255)%nat) by (simpl; lia).
  assert (H5 : forall buf, refuses quiet_env 3 buf = false) by reflexivity.
  destruct (logo_programming_groups quiet_env
              (Tron._static_action 0xFF 0x14 0x93) None session3)
    as (_ & _ & _ & _ & _ & Hrun).
  destruct (Hrun 3 H1 H2 H3 H4 H5) as [_ Hsent].
  repeat (split; [first [exact H1|exact H2|exact H3|exact H4|exact H5]|]).
  rewrite Hsent. reflexivity.
Defined.

(** ** Breathe with more than three colours *)

Lemma tron_breathe_refines E colors ring logos :
  refines (Tron._send E) (Tron.breathe E colors ring logos)
    ((if ring
      then TronSpec.ring_script (Tron._morph_actions colors) Tron.RING_ZONES
      else [])
     ++ (if logos
         then TronSpec.logo_script (Tron._morph_actions colors)
                Tron.LOGO_ZONES
         else [])).
Proof.
  unfold Tron.breathe. apply refines_bind; apply refines_when.
  - apply (set_ring_refines E _ None).
  - apply (set_logos_refines E _ None).
Qed.

Lemma morph_blocks_length (colors : list color) :
  length (flat_map TronSpec.morph_block colors) = (8 * length colors)%nat.
Proof. induction colors as [|[[r g] b] colors IH]; simpl; lia. Qed.

(** C4. Given four or more colours, the ring/logo encoder builds its morph
    action from the first three only (three blocks, 24 bytes), and that is
    the action [Tron.breathe] pushes; the keyboard payload of
    [Keyboard.breathe] carries the full count minus one followed by the RGB
    bytes of every colour supplied, so the keyboard side has no cap. *)
Theorem breathe_color_cap (E : env) (colors : list color)
        (ring logos : bool) :
  (4 <= length colors)%nat ->
  let actions := flat_map TronSpec.morph_block (firstn 3 colors) in
  let data :=
    [0x80; 0x02; 0x07; 0x00; 0x00; 0x01; 0x01; 0x01;
     Z.of_nat (length colors) - 1]
    ++ flat_map (fun '(r, g, b) => [r; g; b]) colors in
  Tron._morph_actions colors = actions
  /\ length actions = 24%nat
  /\ refines (Tron._send E) (Tron.breathe E colors ring logos)
       ((if ring then TronSpec.ring_script actions Tron.RING_ZONES else [])
        ++ (if logos then TronSpec.logo_script actions Tron.LOGO_ZONES
            else []))
  /\ Keyboard.global_effect_data 0x02 0x07 colors = data
  /\ length data = (9 + 3 * length colors)%nat
  /\ refines (Keyboard._send E) (Keyboard.breathe E colors)
       [Send [0x94]; Wait 50;
        Send [0x80; 0x01; 0xFE; 0x00; 0x00; 0x01; 0x01; 0x01]; Wait 50;
        Send data; Wait 50;
        Send [0x8B; 0x01; 0xFF]].
Proof.
  intros Hlen actions data. split_and!.
  - apply morph_actions_spec.
  - subst actions. rewrite morph_blocks_length, length_firstn. lia.
  - subst actions. rewrite <- morph_actions_spec. apply tron_breathe_refines.
  - apply global_effect_data_spec.
  - apply (global_cmd_length 0x02 0x07 colors).
  - apply (keyboard_method_refines E (KeyboardSpec.Breathe colors)).
Qed.

Lemma breathe_color_cap_witness :
  (4 <= length four_colors)%nat
  /\ Tron._morph_actions four_colors
     = [0x02; 0x07; 0xCF; 0x00; 0x64; 1; 2; 3;
        0x02; 0x07; 0xCF; 0x00; 0x64; 4; 5; 6;
        0x02; 0x07; 0xCF; 0x00; 0x64; 7; 8; 9]
  /\ Keyboard.global_effect_data 0x02 0x07 four_colors
     = [0x80; 0x02; 0x07; 0x00; 0x00; 0x01; 0x01; 0x01; 3;
        1; 2; 3; 4; 5; 6; 7; 8; 9; 10; 11; 12].
Proof.
  assert (H : (4 <= length four_colors)%nat) by (simpl; lia).
  destruct (breathe_color_cap quiet_env four_colors true true H)
    as (Hact & _ & _ & Hdata & _).
  split; [exact H|]. split; [exact Hact|exact Hdata].
Defined.

(** ** Device discovery *)

Lemma contains_cons sub a s :
  contains sub (String a s) = false -> contains sub s = false.
Proof. simpl. intros H. by apply orb_false_iff in H as [_ H]. Qed.

Lemma no_slash_head a s :
  contains "/" (String a s) = false -> Ascii.eqb a "/" = false.
Proof.
  simpl. intros H. apply orb_false_iff in H as [H _].
  rewrite andb_true_r in H. by rewrite Ascii.eqb_sym.
Qed.

Lemma split_char_nonempty c s : split_char c s <> [].
Proof.
  destruct s as [|a s]; simpl; [done|].
  destruct (Ascii.eqb a c); [done|]. by destruct (split_char c s).
Qed.

Lemma split_char_app c s1 s2 :
  split_char c (s1 +:+ String c s2) = split_char c s1 ++ split_char c s2.
Proof.
  induction s1 as [|a s1 IH]; simpl.
  - by rewrite Ascii.eqb_refl.
  - destruct (Ascii.eqb a c); [by rewrite IH|].
    rewrite IH. pose proof (split_char_nonempty c s1).
    by destruct (split_char c s1).
Qed.

Lemma split_char_whole node :
  contains "/" node = false -> split_char "/" node = [node].
Proof.
  induction node as [|a node IH]; intros H; simpl; [done|].
  rewrite (no_slash_head _ _ H), IH by (by eapply contains_cons). done.
Qed.

Lemma uevent_path_node node :
  contains "/" node = false ->
  nth_error (split_char "/" (uevent_path node)) 4 = Some node.
Proof.
  intros H. unfold uevent_path.
  change ("/sys/class/hidraw/" +:+ node +:+ "/device/uevent")
    with ("/sys/class/hidraw"
          +:+ String "/" (node +:+ String "/" "device/uevent")).
  rewrite !split_char_app, (split_char_whole node) by done. done.
Qed.

Lemma find_record (U : list (string * string)) path text :
  NoDup (map fst U) -> In (path, text) U ->
  List.find (fun rec => String.eqb (fst rec) path) U = Some (path, text).
Proof.
  induction U as [|[p t] U IH]; simpl; intros Hnd Hin; [done|].
  apply NoDup_cons in Hnd as [Hp Hnd].
  destruct (String.eqb_spec p path) as [->|Hne].
  - destruct Hin as [[= ->]|Hin]; [done|].
    exfalso. apply Hp. apply list_elem_of_In.
    apply (in_map fst) in Hin. exact Hin.
  - destruct Hin as [[= ? ?]|Hin]; [done|]. by apply IH.
Qed.

Lemma read_text_in E path text :
  NoDup (map fst (uevents E)) -> In (path, text) (uevents E) ->
  read_text E path = Some text.
Proof.
  intros Hnd Hin. unfold read_text. by rewrite (find_record _ path text).
Qed.

Lemma read_text_inv E path text :
  read_text E path = Some text -> In (path, text) (uevents E).
Proof.
  unfold read_text.
  destruct (List.find _ (uevents E)) as [[p t]|] eqn:Hf; [|done].
  intros [= <-]. apply find_some in Hf as [Hin Heq]. simpl in *.
  apply String.eqb_eq in Heq. by subst.
Qed.

Lemma scan_ext E E' vid pid paths :
  (forall p, In p paths -> read_text E p = read_text E' p) ->
  scan E vid pid paths = scan E' vid pid paths.
Proof.
  induction paths as [|p paths IH]; simpl; intros H; [done|].
  rewrite <- (H p) by auto. rewrite IH by auto. done.
Qed.

(** The loop stops at the first readable path whose text holds both
    identifiers. *)
Lemma scan_first_match E vid pid paths :
  (forall p, In p paths ->
     (exists t, read_text E p = Some t)
     /\ exists node, p = uevent_path node /\ contains "/" node = false) ->
  (exists before node text after,
     paths = before ++ uevent_path node :: after
     /\ read_text E (uevent_path node) = Some text
     /\ contains vid text && contains pid text = true
     /\ (forall q t, In q before -> read_text E q = Some t ->
           contains vid t && contains pid t = false)
     /\ scan E vid pid paths = inr (Some ("/dev/" +:+ node)))
  \/ ((forall q t, In q paths -> read_text E q = Some t ->
         contains vid t && contains pid t = false)
      /\ scan E vid pid paths = inr None).
Proof.
  induction paths as [|p paths IH]; intros Hwf.
  - right. split; [by intros ?? []|done].
  - destruct (Hwf p) as [[t Ht] (node & -> & Hnode)]; [by left|].
    cbn [scan]. rewrite Ht.
    destruct (contains vid t && contains pid t) eqn:Hhit.
    + left. exists [], node, t, paths. rewrite uevent_path_node by done.
      split_and!; [done..| |done]. by intros ?? [].
    + destruct IH as [(before & node' & t' & after & -> & Hr & Hh & Hb & Hs)
                     |[Hnone Hs]].
      { intros q Hq. apply Hwf. by right. }
      * left. exists (uevent_path node :: before), node', t', after.
        split_and!; [done..| |done].
        intros q tq [<-|Hq] Hrq; [|by eapply Hb].
        rewrite Ht in Hrq. by injection Hrq as <-.
      * right. split; [|done].
        intros q tq [<-|Hq] Hrq; [|by eapply Hnone].
        rewrite Ht in Hrq. by injection Hrq as <-.
Qed.

Lemma sorted_glob_sorted E : StronglySorted String.le (sorted_glob E).
Proof. apply StronglySorted_merge_sort; apply _. Qed.

Lemma sorted_glob_perm E : sorted_glob E ≡ₚ map fst (uevents E).
Proof. apply merge_sort_Permutation. Qed.

Lemma sorted_glob_in E p :
  In p (sorted_glob E) <-> exists t, In (p, t) (uevents E).
Proof.
  rewrite <- list_elem_of_In, sorted_glob_perm, list_elem_of_In, in_map_iff.
  split.
  - intros ([p' t] & <- & Hin). by exists t.
  - intros (t & Hin). by exists (p, t).
Qed.

Lemma registry_scan_ok E p :
  registry_ok E -> In p (sorted_glob E) ->
  (exists t, read_text E p = Some t)
  /\ exists node, p = uevent_path node /\ contains "/" node = false.
Proof.
  intros [Hnd Hform] Hp. split.
  - apply sorted_glob_in in Hp as [t Ht]. exists t. by apply read_text_in.
  - rewrite List.Forall_forall in Hform. apply Hform.
    apply list_elem_of_In. rewrite <- sorted_glob_perm.
    by apply list_elem_of_In.
Qed.

Lemma find_hidraw_perm E E' vid pid :
  NoDup (map fst (uevents E)) ->
  Permutation (uevents E') (uevents E) ->
  find_hidraw E' vid pid = find_hidraw E vid pid.
Proof.
  intros Hnd Hperm. unfold find_hidraw.
  assert (Permutation (map fst (uevents E')) (map fst (uevents E))) as Hfst
    by (by apply Permutation_map).
  assert (NoDup (map fst (uevents E'))) as Hnd' by (by rewrite Hfst).
  assert (sorted_glob E' = sorted_glob E) as ->.
  { apply (StronglySorted_unique String.le);
      [apply sorted_glob_sorted..|].
    by rewrite !sorted_glob_perm. }
  apply scan_ext. intros p Hp.
  apply sorted_glob_in in Hp as [t Ht].
  rewrite (read_text_in E p t) by done.
  apply read_text_in; [done|].
  apply list_elem_of_In. rewrite Hperm. by apply list_elem_of_In.
Qed.

(** C7. The locator walks the descriptor records in the lexicographic order
    of their paths and answers with the device path of the first record
    whose text contains both identifiers, and with none when no record
    does.  The answer depends on the records only, not on the order in
    which the system enumerates them. *)
Theorem find_hidraw_first_sorted_match (E : env) (vid pid : string) :
  registry_ok E ->
  let hit text := contains vid text && contains pid text in
  StronglySorted String.le (sorted_glob E)
  /\ Permutation (sorted_glob E) (map fst (uevents E))
  /\ match find_hidraw E vid pid with
     | inr (Some device) =>
         exists node text,
           In (uevent_path node, text) (uevents E)
           /\ hit text = true
           /\ device = "/dev/" +:+ node
           /\ forall path' text',
                In (path', text') (uevents E) -> hit text' = true ->
                String.le (uevent_path node) path'
     | inr None =>
         forall path text, In (path, text) (uevents E) -> hit text = false
     | inl _ => False
     end
  /\ forall E',
       Permutation (uevents E') (uevents E) ->
       find_hidraw E' vid pid = find_hidraw E vid pid.
Proof.
  intros Hok hit. pose proof Hok as [Hnd _]. split_and!.
  - apply sorted_glob_sorted.
  - apply sorted_glob_perm.
  - unfold find_hidraw.
    destruct (scan_first_match E vid pid (sorted_glob E))
      as [(before & node & text & after & Hsplit & Hr & Hh & Hb & ->)
         |[Hnone ->]].
    { intros p Hp. by apply registry_scan_ok. }
    + exists node, text. split_and!; [by apply read_text_inv|done..|].
      intros path' text' Hin Hhit.
      assert (In path' (sorted_glob E)) as Hp
        by (apply sorted_glob_in; eauto).
      pose proof (sorted_glob_sorted E) as Hsorted.
      rewrite Hsplit in Hp, Hsorted.
      apply in_app_iff in Hp as [Hp|[<-|Hp]].
      * unfold hit in Hhit.
        rewrite (Hb path' text' Hp) in Hhit; [done|].
        by apply read_text_in.
      * done.
      * apply StronglySorted_app_1_r, StronglySorted_cons in Hsorted
          as [Hle _].
        rewrite Forall_forall in Hle. apply Hle. by apply list_elem_of_In.
    + intros path text Hin. apply (Hnone path text).
      * apply sorted_glob_in. eauto.
      * by apply read_text_in.
  - intros E' Hperm. by apply find_hidraw_perm.
Qed.

Lemma laptop_registry_ok : registry_ok laptop_env.
Proof.
  split.
  - apply (bool_decide_unpack _). by vm_compute.
  - repeat constructor.
    + by exists "hidraw2".
    + by exists "hidraw10".
    + by exists "hidraw0".
Qed.

Lemma find_hidraw_first_sorted_match_witness :
  registry_ok laptop_env
  /\ sorted_glob laptop_env
     = [uevent_path "hidraw0"; uevent_path "hidraw10"; uevent_path "hidraw2"]
  /\ find_hidraw laptop_env "0D62" "BABC" = inr (Some "/dev/hidraw0")
  /\ forall E',
       Permutation (uevents E') (uevents laptop_env) ->
       find_hidraw E' "0D62" "BABC" = inr (Some "/dev/hidraw0").
Proof.
  destruct (find_hidraw_first_sorted_match laptop_env "0D62" "BABC"
              laptop_registry_ok) as (_ & _ & _ & Hperm).
  split; [exact laptop_registry_ok|].
  split; [reflexivity|]. split; [reflexivity|].
  intros E' HE'. rewrite (Hperm E' HE'). reflexivity.
Defined.

(** ** The effect dispatch neither opens nor closes *)

Lemma quiet_ret {S A} (a : A) : quiet (@ret S A a).
Proof. intros s. simpl. by split. Qed.

Lemma quiet_raise {S A} e : quiet (@raise S A e).
Proof. intros s. simpl. by split. Qed.

Lemma quiet_lift_exn {S A} (r : exn + A) : quiet (@lift_exn S A r).
Proof. destruct r; [apply quiet_raise|apply quiet_ret]. Qed.

Lemma quiet_emit {S} e : io_only e = true -> quiet (@emit S e).
Proof. intros He s. simpl. split; [done|]. by repeat constructor. Qed.

Lemma quiet_bind {S A B} (m : M S A) (f : A -> M S B) :
  quiet m -> (forall a, quiet (f a)) -> quiet (bind m f).
Proof.
  intros Hm Hf s. unfold bind. destruct (Hm s) as [Hs Ht].
  destruct (m s) as [t s' [e|a]]; simpl in *; [done|]. subst s'.
  destruct (Hf a s) as [Hs' Ht']. split; [done|]. by apply Forall_app.
Qed.

Lemma quiet_when {S} (c : bool) (m : M S unit) : quiet m -> quiet (when c m).
Proof. destruct c; [done|]. intros _. apply quiet_ret. Qed.

Lemma quiet_on_kbd {A} (m : M hid A) : quiet m -> quiet (on_kbd m).
Proof.
  intros Hm [k t]. unfold on_kbd. simpl. destruct (Hm k) as [-> Ht]. done.
Qed.

Lemma quiet_on_tron {A} (m : M hid A) : quiet m -> quiet (on_tron m).
Proof.
  intros Hm [k t]. unfold on_tron. simpl. destruct (Hm t) as [-> Ht]. done.
Qed.

Lemma quiet_script send wire m ops :
  (forall d s,
     (exists e, send d s = Outcome [] s (inl e))
     \/ send d s = Outcome (wire s d) s (inr tt)) ->
  (forall s d, Forall (fun e => io_only e = true) (wire s d)) ->
  refines send m ops -> quiet m.
Proof.
  intros Hcases Hwire Href s. rewrite (Href s).
  destruct (run_script_prefix send wire Hcases ops s) as (k & -> & -> & _).
  split; [done|]. generalize (firstn k ops). intros l.
  induction l as [|[d|ms] l IH]; simpl; [constructor|..].
  - apply Forall_app. split; [apply Hwire|done].
  - by constructor.
Qed.

Lemma kbd_wire_io s d : Forall (fun e => io_only e = true) (kbd_wire s d).
Proof. unfold kbd_wire. destruct (fd s); by repeat constructor. Qed.

Lemma tron_wire_io s d : Forall (fun e => io_only e = true) (tron_wire s d).
Proof. unfold tron_wire. destruct (fd s); by repeat constructor. Qed.

Lemma quiet_keyboard_method E e : quiet (keyboard_method E e).
Proof.
  eapply (quiet_script (Keyboard._send E) kbd_wire).
  - apply keyboard_send_cases.
  - apply kbd_wire_io.
  - apply keyboard_method_refines.
Qed.

Lemma quiet_set_ring E actions zones : quiet (Tron._set_ring E actions zones).
Proof.
  eapply (quiet_script (Tron._send E) tron_wire).
  - apply tron_send_cases.
  - apply tron_wire_io.
  - apply set_ring_refines.
Qed.

Lemma quiet_set_logos E actions zones :
  quiet (Tron._set_logos E actions zones).
Proof.
  eapply (quiet_script (Tron._send E) tron_wire).
  - apply tron_send_cases.
  - apply tron_wire_io.
  - apply set_logos_refines.
Qed.

Lemma quiet_tron_apply E actions ring logos :
  quiet (when ring (Tron._set_ring E actions None) ;;
         when logos (Tron._set_logos E actions None)).
Proof.
  apply quiet_bind; [|intros _]; apply quiet_when;
    [apply quiet_set_ring|apply quiet_set_logos].
Qed.

Lemma quiet_tron_static E r g b ring logos :
  quiet (Tron.static E r g b ring logos).
Proof. unfold Tron.static. apply quiet_tron_apply. Qed.

Lemma quiet_tron_breathe E colors ring logos :
  quiet (Tron.breathe E colors ring logos).
Proof. unfold Tron.breathe. apply quiet_tron_apply. Qed.

Lemma quiet_tron_pulse E r g b ring logos :
  quiet (Tron.pulse E r g b ring logos).
Proof. unfold Tron.pulse. apply quiet_tron_apply. Qed.

Ltac quiet_kbd E e :=
  let H := fresh in
  pose proof (quiet_keyboard_method E e) as H;
  cbn [keyboard_method] in H; exact H.

Ltac quiet_step :=
  lazymatch goal with
  | |- quiet (bind _ _) => apply quiet_bind; [|intros ?]
  | |- quiet (when _ _) => apply quiet_when
  | |- quiet (on_kbd _) => apply quiet_on_kbd
  | |- quiet (on_tron _) => apply quiet_on_tron
  | |- quiet (lift_exn _) => apply quiet_lift_exn
  | |- quiet (raise _) => apply quiet_raise
  | |- quiet (emit _) => apply quiet_emit; reflexivity
  | |- quiet (Keyboard.static ?E ?r ?g ?b) =>
      quiet_kbd E (KeyboardSpec.Static r g b)
  | |- quiet (Keyboard.breathe ?E ?c) => quiet_kbd E (KeyboardSpec.Breathe c)
  | |- quiet (Keyboard.morph ?E ?c) => quiet_kbd E (KeyboardSpec.Morph c)
  | |- quiet (Keyboard.pulse ?E ?r ?g ?b) =>
      quiet_kbd E (KeyboardSpec.Pulse r g b)
  | |- quiet (Keyboard.spectrum ?E) => quiet_kbd E KeyboardSpec.Spectrum
  | |- quiet (Keyboard.wave ?E) => quiet_kbd E KeyboardSpec.Wave
  | |- quiet (Keyboard.off ?E) => quiet_kbd E KeyboardSpec.Off
  | |- quiet (Tron.static ?E ?r ?g ?b ?ring ?logos) =>
      exact (quiet_tron_static E r g b ring logos)
  | |- quiet (Tron.off ?E ?ring ?logos) =>
      exact (quiet_tron_static E 0 0 0 ring logos)
  | |- quiet (Tron.breathe ?E ?c ?ring ?logos) =>
      exact (quiet_tron_breathe E c ring logos)
  | |- quiet (Tron.morph ?E ?c ?ring ?logos) =>
      exact (quiet_tron_breathe E c ring logos)
  | |- quiet (Tron.spectrum ?E ?ring ?logos) =>
      exact (quiet_tron_breathe E _ ring logos)
  | |- quiet (Tron.pulse ?E ?r ?g ?b ?ring ?logos) =>
      exact (quiet_tron_pulse E r g b ring logos)
  | |- quiet (let '(_, _) := ?c in _) => destruct c as [[? ?] ?]
  | |- quiet (if ?c then _ else _) => destruct c
  end.

Lemma quiet_dispatch E parse cmd color_args dk ring logos :
  quiet (dispatch E parse cmd color_args dk ring logos).
Proof. unfold dispatch. repeat quiet_step. Qed.
(** ** The shape of a run of [main] *)

Lemma close_handle_run s :
  close_handle s
  = Outcome (match fd s with Some n => [Close n] | None => [] end)
            (Hid (dev s) None) (inr tt).
Proof. unfold close_handle, bind, get. simpl. by destruct s as [d [n|]]. Qed.

Ltac rebind_split E s :=
  unfold Keyboard._rebind, bind, get; cbn [trace state result];
  destruct (truthy (dev s)); cbn [negb]; [|done];
  destruct (read_text E _); [|done];
  destruct (truthy _); [|done];
  unfold try_except, bind, write_file, subprocess_run, sleep, emit, raise;
  repeat (cbn [trace state result app];
          match goal with
          | |- context [write_error E ?p] =>
              destruct (write_error E p) as [[]|]
          | |- context [run_error E ?a] => destruct (run_error E a)
          end);
  cbn [trace state result app].

Lemma rebind_state E s : state (Keyboard._rebind E s) = s.
Proof. rebind_split E s; reflexivity. Qed.

Lemma keyboard_close_run E s :
  Keyboard.close E s
  = Outcome (match fd s with Some n => [Close n] | None => [] end
             ++ trace (Keyboard._rebind E (Hid (dev s) None)))
            (Hid (dev s) None)
            (result (Keyboard._rebind E (Hid (dev s) None))).
Proof.
  unfold Keyboard.close, bind. rewrite close_handle_run.
  cbn [trace state result]. by rewrite rebind_state.
Qed.

Lemma teardown_run E dk w :
  teardown E dk w
  = match (if dk then result (Keyboard._rebind E (Hid (dev (kbd w)) None))
           else inr tt) with
    | inl e =>
        Outcome (trace (Keyboard.close E (kbd w)))
                (World (Hid (dev (kbd w)) None) (tron w)) (inl e)
    | inr _ =>
        Outcome ((if dk then trace (Keyboard.close E (kbd w)) else [])
                 ++ trace (Tron.close (tron w)))
                (World (if dk then Hid (dev (kbd w)) None else kbd w)
                       (Hid (dev (tron w)) None))
                (inr tt)
    end.
Proof.
  unfold teardown, Tron.close, when. destruct dk.
  - unfold bind, on_kbd, on_tron.
    rewrite !keyboard_close_run. cbn [trace state result kbd tron].
    destruct (result (Keyboard._rebind E (Hid (dev (kbd w)) None)))
      as [e|[]]; [done|].
    rewrite !close_handle_run. cbn [trace state result]. done.
  - unfold bind, on_tron, ret. cbn [trace state result].
    rewrite !close_handle_run. cbn [trace state result app].
    by destruct w.
Qed.

Lemma teardown_sessions E (kbd_on tron_on : bool) kdev tdev :
  teardown E kbd_on (World (session E kbd_on kdev) (session E tron_on tdev))
  = Outcome (close_events E kbd_on tron_on kdev tdev)
            (closed_world E kbd_on tron_on kdev tdev)
            (final_result (close_failure E kbd_on kdev) (inr tt)).
Proof.
  rewrite teardown_run. unfold close_events, closed_world, close_failure.
  cbn [kbd tron]. rewrite keyboard_close_run.
  unfold Tron.close. rewrite close_handle_run.
  destruct kbd_on.
  - unfold session at 1 2 3 4. cbn [dev fd].
    destruct (result (Keyboard._rebind E (Hid kdev None))) as [e|[]];
      cbn [final_result trace].
    + by rewrite app_nil_r.
    + unfold session. cbn [dev fd]. by destruct tron_on.
  - unfold session. cbn [dev fd final_result app]. by destruct tron_on.
Qed.

Lemma try_finally_quiet {S A} (body : M S A) (fin : M S unit) s :
  quiet body ->
  try_finally body fin s
  = Outcome (trace (body s) ++ trace (fin s)) (state (fin s))
            match result (fin s) with
            | inl e => inl e
            | inr _ => result (body s)
            end.
Proof.
  intros Hq. unfold try_finally. by destruct (Hq s) as [-> _].
Qed.

Lemma bind_lift_inr {S A B} (a : A) (f : A -> M S B) s :
  bind (lift_exn (inr a)) f s = f a s.
Proof. unfold bind, lift_exn, ret. simpl. by destruct (f a s). Qed.

Lemma bind_put {S B} (s' : S) (f : unit -> M S B) s :
  bind (put s') f s = f tt s'.
Proof. unfold bind, put. simpl. by destruct (f tt s'). Qed.

Lemma bind_run {S A B} (m : M S A) (f : A -> M S B) s t s' a :
  m s = Outcome t s' (inr a) ->
  bind m f s
  = Outcome (t ++ trace (f a s')) (state (f a s')) (result (f a s')).
Proof. intros H. unfold bind. by rewrite H. Qed.

Lemma bind_stop {S A B} (m : M S A) (f : A -> M S B) s t s' e :
  m s = Outcome t s' (inl e) -> bind m f s = Outcome t s' (inl e).
Proof. intros H. unfold bind. by rewrite H. Qed.

Lemma keyboard_open_step E (targeted : bool) kdev t :
  (if targeted then on_kbd (Keyboard.open E) else ret false)
    (World (Hid kdev None) t)
  = match open_failure E (targeted && truthy kdev) kdev with
    | Some e => Outcome [] (World (Hid kdev None) t) (inl e)
    | None =>
        Outcome
          (open_events E targeted kdev "Warning: keyboard not found")
          (World (session E (targeted && truthy kdev) kdev) t)
          (inr (targeted && truthy kdev))
    end.
Proof.
  unfold open_events, session, open_failure. destruct targeted; [|done].
  unfold on_kbd, Keyboard.open, os_open, bind, get, put, emit, ret, raise.
  cbn [kbd tron dev fd trace state result andb].
  destruct (truthy kdev); cbn [negb trace state result]; [|done].
  by destruct (open_error E (default "" kdev)).
Qed.

Lemma tron_open_step E (targeted : bool) tdev k :
  (if targeted then on_tron (Tron.open E) else ret true)
    (World k (Hid tdev None))
  = match open_failure E (targeted && truthy tdev) tdev with
    | Some e => Outcome [] (World k (Hid tdev None)) (inl e)
    | None =>
        Outcome
          (open_events E targeted tdev "Warning: AW-ELC not found")
          (World k (session E (targeted && truthy tdev) tdev))
          (inr (if targeted then truthy tdev else true))
    end.
Proof.
  unfold open_events, session, open_failure. destruct targeted; [|done].
  unfold on_tron, Tron.open, os_open, bind, get, put, emit, ret, raise.
  cbn [kbd tron dev fd trace state result andb].
  destruct (truthy tdev); cbn [negb trace state result]; [|done].
  by destruct (open_error E (default "" tdev)).
Qed.

(** A run of [main] that finds its command word: an exception of an open
    ends it before the [try] block, without any close; otherwise the opens,
    the dispatch and the [finally] block follow each other, and an exception
    of the [finally] block replaces the outcome of the dispatch. *)
Lemma main_shape E parse argv arg0 color_args kdev tdev :
  wants_help argv = false ->
  positional argv = arg0 :: color_args ->
  find_hidraw E "0D62" "BABC" = inr kdev ->
  find_hidraw E "187C" "0550" = inr tdev ->
  let kbd_on := keyboard_targeted argv && truthy kdev in
  let tron_on := (ring_targeted argv || logos_targeted argv) && truthy tdev in
  let w := World (session E kbd_on kdev) (session E tron_on tdev) in
  let body :=
    dispatch E parse (lower arg0) color_args kbd_on
             (ring_targeted argv && tron_on)
             (logos_targeted argv && tron_on) in
  main E parse argv boot
  = match open_failure E kbd_on kdev with
    | Some e => Outcome [] (World (Hid kdev None) (Hid tdev None)) (inl e)
    | None =>
        match open_failure E tron_on tdev with
        | Some e =>
            Outcome (open_events E (keyboard_targeted argv) kdev
                                 "Warning: keyboard not found")
                    (World (session E kbd_on kdev) (Hid tdev None)) (inl e)
        | None =>
            Outcome
              (open_events E (keyboard_targeted argv) kdev
                           "Warning: keyboard not found"
               ++ open_events E (ring_targeted argv || logos_targeted argv)
                              tdev "Warning: AW-ELC not found"
               ++ trace (body w)
               ++ close_events E kbd_on tron_on kdev tdev)
              (closed_world E kbd_on tron_on kdev tdev)
              (final_result (close_failure E kbd_on kdev) (result (body w)))
        end
    end.
Proof.
  intros Hhelp Hpos Hk Ht kbd_on tron_on w body.
  unfold main. rewrite Hhelp.
  fold (positional argv). rewrite Hpos.
  unfold Keyboard.__init__, Tron.__init__. rewrite Hk, Ht.
  fold (no_target argv).
  change (if no_target argv then true else mem "--keyboard" argv)
    with (keyboard_targeted argv).
  change ((if no_target argv then true else mem "--tron" argv)
          || mem "--ring" argv) with (ring_targeted argv).
  change ((if no_target argv then true else mem "--tron" argv)
          || mem "--logos" argv) with (logos_targeted argv).
  rewrite !bind_lift_inr, bind_put.
  pose proof (keyboard_open_step E (keyboard_targeted argv) kdev
                (Hid tdev None)) as Hko.
  fold kbd_on in Hko.
  destruct (open_failure E kbd_on kdev) as [e|].
  { by rewrite (bind_stop _ _ _ _ _ _ Hko). }
  rewrite (bind_run _ _ _ _ _ _ Hko).
  pose proof (tron_open_step E (ring_targeted argv || logos_targeted argv)
                tdev (session E kbd_on kdev)) as Hto.
  fold tron_on in Hto.
  destruct (open_failure E tron_on tdev) as [e|].
  { rewrite (bind_stop _ _ _ _ _ _ Hto). cbn [trace state result].
    by rewrite app_nil_r. }
  rewrite (bind_run _ _ _ _ _ _ Hto).
  fold w.
  assert (ring_targeted argv
          && (if ring_targeted argv || logos_targeted argv
              then truthy tdev else true)
          = ring_targeted argv && tron_on) as ->.
  { subst tron_on. destruct (ring_targeted argv), (logos_targeted argv),
      (truthy tdev); done. }
  assert (logos_targeted argv
          && (if ring_targeted argv || logos_targeted argv
              then truthy tdev else true)
          = logos_targeted argv && tron_on) as ->.
  { subst tron_on. destruct (ring_targeted argv), (logos_targeted argv),
      (truthy tdev); done. }
  fold body.
  rewrite try_finally_quiet by apply quiet_dispatch.
  cbn [trace state result]. subst w.
  rewrite teardown_sessions. cbn [trace state result].
  unfold final_result. by destruct (close_failure E kbd_on kdev).
Qed.
(** ** Teardown *)

Lemma find_hidraw_found E vid pid :
  registry_ok E -> exists device, find_hidraw E vid pid = inr device.
Proof.
  intros Hok. unfold find_hidraw.
  destruct (scan_first_match E vid pid (sorted_glob E))
    as [(_ & node & _ & _ & _ & _ & _ & _ & ->)|[_ ->]]; eauto.
  intros p Hp. by apply registry_scan_ok.
Qed.




Lemma rebind_events E s :
  Forall (fun e => match e with
                   | WriteFile _ _ | Run _ | Sleep _ => True
                   | _ => False
                   end) (trace (Keyboard._rebind E s)).
Proof. rebind_split E s; repeat constructor. Qed.



(** ** Closing the ring/logo session *)








(** ** Off is static black *)

Lemma commands_app a b : commands (a ++ b) = commands a ++ commands b.
Proof. unfold commands. apply List.filter_app. Qed.

Lemma then_print_commands {S} (m : M S unit) (x y : string) s :
  let rx := (m ;; emit (Print x)) s in
  let ry := (m ;; emit (Print y)) s in
  commands (trace rx) = commands (trace ry)
  /\ state rx = state ry /\ result rx = result ry.
Proof.
  unfold bind, emit. destruct (m s) as [t s' [e|[]]]; cbn; [done|].
  by rewrite !commands_app.
Qed.

Lemma dispatch_off E parse color_args dk ring logos w :
  dispatch E parse "off" color_args dk ring logos w
  = ((when dk (on_kbd (Keyboard.static E 0 0 0)) ;;
      when (ring || logos) (on_tron (Tron.static E 0 0 0 ring logos))) ;;
     emit (Print "Lights off")) w.
Proof. symmetry. apply bind_assoc. Qed.

Lemma dispatch_static_black E parse c color_args dk ring logos w :
  parse c = inr (0, 0, 0) ->
  dispatch E parse "static" (c :: color_args) dk ring logos w
  = ((when dk (on_kbd (Keyboard.static E 0 0 0)) ;;
      when (ring || logos) (on_tron (Tron.static E 0 0 0 ring logos))) ;;
     emit (Print ("Static " +:+ hex_color 0 0 0))) w.
Proof.
  intros Hc. rewrite bind_assoc.
  change (dispatch E parse "static" (c :: color_args) dk ring logos w)
    with ((x <- lift_exn (parse c) ;;
           let '(r, g, b) := x in
           when dk (on_kbd (Keyboard.static E r g b)) ;;
           when (ring || logos)
             (on_tron (Tron.static E r g b ring logos)) ;;
           emit (Print ("Static " +:+ hex_color r g b))) w).
  rewrite Hc. by rewrite bind_lift_inr.
Qed.

Lemma not_flag_neq flag c :
  startswith "--" flag = true -> startswith "--" c = false ->
  String.eqb flag c = false.
Proof.
  intros Hf Hc. destruct (String.eqb_spec flag c) as [->|]; congruence.
Qed.

Lemma mem_skip_color flag c rest :
  startswith "--" flag = true -> startswith "--" c = false ->
  mem flag (c :: rest) = mem flag rest.
Proof. intros Hf Hc. unfold mem. simpl. by rewrite not_flag_neq. Qed.

(** C8. On both controllers [off] is [static] with colour (0, 0, 0), and a
    run of the [off] command issues exactly the commands, in the same
    order, of a [static] run whose colour token parses to (0, 0, 0), on the
    same targets; only the line printed at the end differs. *)
Theorem off_is_black_static (E : env) :
  (forall ring logos s,
     Keyboard.off E s = Keyboard.static E 0 0 0 s
     /\ Tron.off E ring logos s = Tron.static E 0 0 0 ring logos s)
  /\ (forall parse c rest,
        registry_ok E ->
        parse c = inr (0, 0, 0) ->
        startswith "--" c = false ->
        let off := main E parse ("off" :: rest) boot in
        let static := main E parse ("static" :: c :: rest) boot in
        commands (trace off) = commands (trace static)
        /\ state off = state static
        /\ result off = result static).
Proof.
  split; [done|].
  intros parse c rest Hok Hc Hnf off static. subst off static.
  destruct (find_hidraw_found E "0D62" "BABC" Hok) as [kdev Hk].
  destruct (find_hidraw_found E "187C" "0550" Hok) as [tdev Ht].
  assert (positional ("static" :: c :: rest)
          = "static" :: c :: positional rest) as Hps.
  { unfold positional. cbn [List.filter]. rewrite Hnf. done. }
  assert (keyboard_targeted ("static" :: c :: rest)
          = keyboard_targeted ("off" :: rest)
          /\ ring_targeted ("static" :: c :: rest)
             = ring_targeted ("off" :: rest)
          /\ logos_targeted ("static" :: c :: rest)
             = logos_targeted ("off" :: rest)) as (Hkt & Hrt & Hlt).
  { unfold keyboard_targeted, ring_targeted, logos_targeted, no_target.
    assert (forall flag, startswith "--" flag = true ->
              mem flag ("static" :: c :: rest) = mem flag ("off" :: rest))
      as Hmem.
    { intros flag Hf. unfold mem. cbn [existsb].
      rewrite (not_flag_neq flag c Hf Hnf).
      rewrite (not_flag_neq flag "static" Hf eq_refl).
      rewrite (not_flag_neq flag "off" Hf eq_refl). done. }
    rewrite !Hmem by done. done. }
  rewrite (main_shape E parse ("off" :: rest) "off" (positional rest)
             kdev tdev eq_refl eq_refl Hk Ht).
  rewrite (main_shape E parse ("static" :: c :: rest) "static"
             (c :: positional rest) kdev tdev eq_refl Hps Hk Ht).
  cbv zeta. rewrite Hkt, Hrt, Hlt.
  destruct (open_failure E _ kdev); [done|].
  destruct (open_failure E _ tdev); [done|].
  cbn [trace state result].
  change (lower "off") with "off". change (lower "static") with "static".
  rewrite dispatch_off, (dispatch_static_black _ _ _ _ _ _ _ _ Hc).
  match goal with
  | |- context [bind ?m (fun _ => emit (Print "Lights off")) ?w] =>
      destruct (then_print_commands m "Lights off"
                  ("Static " +:+ hex_color 0 0 0) w) as (Ht' & _ & Hr')
  end.
  cbv zeta in Ht', Hr'.
  rewrite !commands_app, Ht', Hr'. done.
Qed.

Lemma off_is_black_static_witness :
  registry_ok laptop_env
  /\ parse_color "000000" = inr (0, 0, 0)
  /\ startswith "--" "000000" = false
  /\ commands (trace (main laptop_env parse_color ["off"; "--logos"] boot))
     = commands
         (trace (main laptop_env parse_color
                   ["static"; "000000"; "--logos"] boot)).
Proof.
  assert (H1 : parse_color "000000" = inr (0, 0, 0)) by reflexivity.
  assert (H2 : startswith "--" "000000" = false) by reflexivity.
  destruct (off_is_black_static laptop_env) as [_ Hmain].
  destruct (Hmain parse_color "000000" ["--logos"] laptop_registry_ok H1 H2)
    as (Hcmd & _ & _).
  split; [exact laptop_registry_ok|].
  split; [exact H1|]. split; [exact H2|]. exact Hcmd.
Defined.

(** * Further properties of the program *)

(** ** Colour tokens *)

Lemma in_all_bytes v : 0 <= v < 256 -> In v all_bytes.
Proof.
  intros Hv. unfold all_bytes. apply in_map_iff.
  exists (Z.to_nat v). split; [lia|]. apply in_seq. lia.
Qed.

Lemma in_all_ascii a : In a all_ascii.
Proof.
  unfold all_ascii. apply in_map_iff. exists (nat_of_ascii a).
  split; [apply ascii_nat_embedding|].
  apply in_seq. pose proof (nat_ascii_bounded a). lia.
Qed.

Lemma two_digits_back_all v : 0 <= v < 256 -> two_digits_back v = true.
Proof.
  intros Hv.
  assert (forallb two_digits_back all_bytes = true) as Hall
    by (vm_compute; reflexivity).
  rewrite forallb_forall in Hall. by apply Hall, in_all_bytes.
Qed.

Lemma format_02X_byte v :
  0 <= v < 256 ->
  exists x y,
    format_02X v = String x (String y EmptyString)
    /\ Ascii.eqb x "#" = false
    /\ int16 (String x (String y EmptyString)) = inr v.
Proof.
  intros Hv. pose proof (two_digits_back_all v Hv) as H.
  unfold two_digits_back in H.
  destruct (format_02X v) as [|x [|y [|]]]; try done.
  exists x, y. apply andb_true_iff in H as [Hx Hi].
  apply negb_true_iff in Hx. split_and!; [done..|].
  destruct (int16 _) as [|w]; [done|]. apply Z.eqb_eq in Hi. by subst.
Qed.

Lemma lstrip_hash_other x s :
  Ascii.eqb x "#" = false -> lstrip_hash (String x s) = String x s.
Proof.
  destruct x as [[] [] [] [] [] [] [] []]; cbn; congruence.
Qed.

(** X1. The colour printed by [main] reads back: for 8-bit components,
    [parse_color] of the text ["#RRGGBB"] that [hex_color] builds, with or
    without the hash, is the colour itself. *)
Theorem parse_color_reads_back_hex_color (r g b : Z) :
  color_ok (r, g, b) ->
  parse_color (hex_color r g b) = inr (r, g, b)
  /\ parse_color (format_02X r +:+ format_02X g +:+ format_02X b)
     = inr (r, g, b).
Proof.
  intros (Hr & Hg & Hb).
  destruct (format_02X_byte r Hr) as (xr & yr & Fr & Nr & Ir).
  destruct (format_02X_byte g Hg) as (xg & yg & Fg & Ng & Ig).
  destruct (format_02X_byte b Hb) as (xb & yb & Fb & Nb & Ib).
  unfold hex_color. rewrite Fr, Fg, Fb.
  assert (parse_color
            (String xr (String yr (String xg (String yg
               (String xb (String yb EmptyString))))))
          = inr (r, g, b)) as Hparse.
  { unfold parse_color. rewrite lstrip_hash_other by done.
    cbn [String.substring]. by rewrite Ir, Ig, Ib. }
  split; [|exact Hparse].
  unfold parse_color in *. cbn [String.append lstrip_hash].
  exact Hparse.
Qed.

Lemma parse_color_reads_back_hex_color_witness :
  color_ok (0xFF, 0x14, 0x93)
  /\ hex_color 0xFF 0x14 0x93 = "#FF1493"
  /\ parse_color "#FF1493" = inr (0xFF, 0x14, 0x93).
Proof.
  assert (H : color_ok (0xFF, 0x14, 0x93)) by (simpl; lia).
  destruct (parse_color_reads_back_hex_color 0xFF 0x14 0x93 H) as [Hp _].
  split; [exact H|]. split; [reflexivity|exact Hp].
Defined.

Lemma slice_short n s : (String.length (String.substring n 2 s) <= 2)%nat.
Proof.
  revert s. induction n as [|n IH]; intros s.
  - destruct s as [|a [|b [|c s]]]; cbn; lia.
  - destruct s as [|a s]; cbn; [lia|apply IH].
Qed.

Lemma slice_result_ok_all t :
  (String.length t <= 2)%nat -> slice_result_ok t = true.
Proof.
  intros Hlen.
  assert (forallb (fun a =>
            slice_result_ok (String a EmptyString)
            && forallb (fun b =>
                 slice_result_ok (String a (String b EmptyString)))
                 all_ascii) all_ascii = true) as Hall
    by (vm_compute; reflexivity).
  rewrite forallb_forall in Hall.
  destruct t as [|a [|b [|c t]]]; cbn in Hlen; [done| | |lia].
  - specialize (Hall a (in_all_ascii a)).
    by apply andb_true_iff in Hall as [H _].
  - specialize (Hall a (in_all_ascii a)).
    apply andb_true_iff in Hall as [_ H].
    rewrite forallb_forall in H. apply H, in_all_ascii.
Qed.

Lemma int16_slice n s :
  match int16 (String.substring n 2 s) with
  | inl e => e = ValueError
  | inr v => -15 <= v <= 255
  end.
Proof.
  pose proof (slice_result_ok_all _ (slice_short n s)) as H.
  unfold slice_result_ok in H.
  destruct (int16 _) as [[]|v]; try done.
  apply andb_true_iff in H as [H1 H2].
  apply Z.leb_le in H1, H2. lia.
Qed.

(** X2. On an ASCII token [parse_color] fails with [ValueError] only, and
    a colour it returns has its three components between -15 and 255: a
    signed digit such as [-f] is accepted, so a component can be
    negative. *)
Theorem parse_color_range (s : string) :
  is_ascii s = true ->
  match parse_color s with
  | inl e => e = ValueError
  | inr (r, g, b) => -15 <= r <= 255 /\ -15 <= g <= 255 /\ -15 <= b <= 255
  end.
Proof.
  intros _. unfold parse_color.
  pose proof (int16_slice 0 (lstrip_hash s)) as Hr.
  pose proof (int16_slice 2 (lstrip_hash s)) as Hg.
  pose proof (int16_slice 4 (lstrip_hash s)) as Hb.
  destruct (int16 (String.substring 0 2 _)) as [e|r]; [done|].
  destruct (int16 (String.substring 2 2 _)) as [e|g]; [done|].
  destruct (int16 (String.substring 4 2 _)) as [e|b]; [done|].
  done.
Qed.

Lemma parse_color_range_witness :
  is_ascii "-f+1 7" = true
  /\ parse_color "-f+1 7" = inr (-15, 1, 7)
  /\ -15 <= -15 <= 255 /\ -15 <= 1 <= 255 /\ -15 <= 7 <= 255.
Proof.
  assert (H : is_ascii "-f+1 7" = true) by reflexivity.
  assert (Hp : parse_color "-f+1 7" = inr (-15, 1, 7)) by reflexivity.
  pose proof (parse_color_range "-f+1 7" H) as Hrange.
  rewrite Hp in Hrange.
  split; [exact H|]. split; [exact Hp|exact Hrange].
Defined.

Lemma lstrip_hash_idem s : lstrip_hash (lstrip_hash s) = lstrip_hash s.
Proof.
  induction s as [|a s IH]; [done|].
  destruct (Ascii.eqb a "#") eqn:Ha.
  - apply Ascii.eqb_eq in Ha. subst a. exact IH.
  - by rewrite !lstrip_hash_other.
Qed.

Lemma lstrip_hash_head s :
  match lstrip_hash s with
  | String a _ => Ascii.eqb a "#" = false
  | EmptyString => True
  end.
Proof.
  induction s as [|a s IH]; [done|].
  destruct (Ascii.eqb a "#") eqn:Ha.
  - apply Ascii.eqb_eq in Ha. subst a. exact IH.
  - by rewrite lstrip_hash_other.
Qed.

Lemma slices_of_prefix t :
  String.substring 0 2 (String.substring 0 6 t) = String.substring 0 2 t
  /\ String.substring 2 2 (String.substring 0 6 t) = String.substring 2 2 t
  /\ String.substring 4 2 (String.substring 0 6 t) = String.substring 4 2 t.
Proof.
  destruct t as [|a [|b [|c [|d [|e [|f [|g t]]]]]]]; cbn; done.
Qed.

(** X3. On an ASCII token [parse_color] reads only the first six
    characters that follow the leading hashes: whatever comes after them is
    ignored, and a token with fewer than five such characters raises
    [ValueError]. *)
Theorem parse_color_first_six (s : string) :
  is_ascii s = true ->
  parse_color s = parse_color (String.substring 0 6 (lstrip_hash s))
  /\ ((String.length (lstrip_hash s) < 5)%nat ->
      parse_color s = inl ValueError).
Proof.
  intros _. split.
  - unfold parse_color at 2.
    assert (lstrip_hash (String.substring 0 6 (lstrip_hash s))
            = String.substring 0 6 (lstrip_hash s)) as ->.
    { pose proof (lstrip_hash_head s) as Hh.
      destruct (lstrip_hash s) as [|a t]; [done|].
      change (String.substring 0 6 (String a t))
        with (String a (String.substring 0 5 t)).
      by apply lstrip_hash_other. }
    destruct (slices_of_prefix (lstrip_hash s)) as (-> & -> & ->).
    done.
  - intros Hlen. unfold parse_color.
    pose proof (int16_slice 0 (lstrip_hash s)) as Hr.
    pose proof (int16_slice 2 (lstrip_hash s)) as Hg.
    assert (String.substring 4 2 (lstrip_hash s) = EmptyString) as ->.
    { destruct (lstrip_hash s) as [|a [|b [|c [|d [|e t]]]]];
        cbn in *; try done; lia. }
    destruct (int16 (String.substring 0 2 _)) as [e|r]; [by subst|].
    destruct (int16 (String.substring 2 2 _)) as [e|g]; [by subst|].
    done.
Qed.

Lemma parse_color_first_six_witness :
  is_ascii "#FF14" = true
  /\ is_ascii "FF1493 and more" = true
  /\ (String.length (lstrip_hash "#FF14") < 5)%nat
  /\ parse_color "#FF14" = inl ValueError
  /\ parse_color "FF1493 and more" = parse_color "FF1493".
Proof.
  assert (H1 : is_ascii "#FF14" = true) by reflexivity.
  assert (H2 : is_ascii "FF1493 and more" = true) by reflexivity.
  assert (H : (String.length (lstrip_hash "#FF14") < 5)%nat)
    by (cbn; lia).
  destruct (parse_color_first_six "#FF14" H1) as [_ Hshort].
  destruct (parse_color_first_six "FF1493 and more" H2) as [Hsix _].
  split; [exact H1|]. split; [exact H2|]. split; [exact H|].
  split; [exact (Hshort H)|exact Hsix].
Defined.

(** ** Colours that are not bytes *)

Lemma run_script_stop send wire ops d rest s e :
  (forall d', In d' (payloads ops) ->
     send d' s = Outcome (wire s d') s (inr tt)) ->
  send d s = Outcome [] s (inl e) ->
  run_script send (ops ++ Send d :: rest) s
  = Outcome (flat_map (op_events wire s) ops) s (inl e).
Proof.
  intros Hok Hbad. rewrite run_script_app. unfold bind.
  rewrite (run_script_ok send wire ops s Hok). cbn [trace state result].
  cbn [run_script do_op]. unfold bind. rewrite Hbad. cbn [trace state result].
  by rewrite app_nil_r.
Qed.

Lemma bytes_bad l : ~ bytes_ok l -> bytes l = inl ValueError.
Proof.
  intros H. unfold bytes. destruct (forallb is_byte l) eqn:Hall; [|done].
  exfalso. apply H. by apply bytes_ok_check.
Qed.

Lemma keyboard_send_bad E d s :
  ~ bytes_ok d -> Keyboard._send E d s = Outcome [] s (inl ValueError).
Proof.
  intros Hd. unfold Keyboard._send. rewrite keyboard_wire_frame.
  rewrite bytes_bad; [done|].
  intros Hf. apply Hd. unfold frame, bytes_ok in Hf.
  apply Forall_cons in Hf as [_ Hf]. by apply Forall_app in Hf as [Hf _].
Qed.

Lemma chunk_cmd_bad r g b k keys :
  ~ color_ok (r, g, b) ->
  ~ bytes_ok (KeyboardSpec.chunk_cmd r g b (k :: keys)).
Proof.
  intros Hc Hb. apply Hc. unfold KeyboardSpec.chunk_cmd, bytes_ok in Hb.
  cbn in Hb. repeat (apply Forall_cons in Hb as [? Hb]). done.
Qed.

(** X4. With a colour component outside 0..255, [Keyboard.static] on an open
    session sends reset and disable-effect, then raises [ValueError] when it
    builds the first key chunk: no key is programmed and nothing is
    committed. *)
Theorem keyboard_static_bad_color (E : env) (s : hid) (n r g b : Z) :
  fd s = Some n ->
  (forall buf, refuses E n buf = false) ->
  ~ color_ok (r, g, b) ->
  Keyboard.static E r g b s
  = Outcome
      [Ioctl n (HIDIOCSFEATURE 64) (frame 0xCC 64 [0x94]);
       Sleep 50;
       Ioctl n (HIDIOCSFEATURE 64)
         (frame 0xCC 64 [0x80; 0x01; 0xFE; 0x00; 0x00; 0x01; 0x01; 0x01]);
       Sleep 50]
      s (inl ValueError).
Proof.
  intros Hfd Hr Hc.
  pose proof (keyboard_method_refines E (KeyboardSpec.Static r g b)) as Href.
  cbn [keyboard_method] in Href. rewrite (Href s).
  change (KeyboardSpec.script (KeyboardSpec.Static r g b))
    with ([Send [0x94]; Wait 50;
           Send [0x80; 0x01; 0xFE; 0x00; 0x00; 0x01; 0x01; 0x01]; Wait 50]
          ++ Send (KeyboardSpec.chunk_cmd r g b
                     [0; 1; 2; 3; 4; 5; 6; 7; 8; 9; 10; 11; 12; 13; 14])
             :: skipn 5 (KeyboardSpec.script (KeyboardSpec.Static r g b))).
  rewrite (run_script_stop (Keyboard._send E) kbd_wire _ _ _ s ValueError).
  - cbn [flat_map op_events app]. unfold kbd_wire. rewrite Hfd. done.
  - intros d Hd. apply (keyboard_send_ok E d s n); [done| |done].
    cbn in Hd. destruct Hd as [<-|[<-|[]]];
      apply bytes_ok_check; reflexivity.
  - apply keyboard_send_bad. by apply chunk_cmd_bad.
Qed.

Lemma keyboard_static_bad_color_witness :
  fd session3 = Some 3
  /\ (forall buf, refuses quiet_env 3 buf = false)
  /\ ~ color_ok (-1, -1, -1)
  /\ parse_color "-1-1-1" = inr (-1, -1, -1)
  /\ result (Keyboard.static quiet_env (-1) (-1) (-1) session3)
     = inl ValueError
  /\ length (sent (trace (Keyboard.static quiet_env (-1) (-1) (-1)
                            session3))) = 2%nat.
Proof.
  assert (H1 : fd session3 = Some 3) by reflexivity.
  assert (H2 : forall buf, refuses quiet_env 3 buf = false) by reflexivity.
  assert (H3 : ~ color_ok (-1, -1, -1)) by (simpl; lia).
  pose proof (keyboard_static_bad_color quiet_env session3 3 (-1) (-1) (-1)
                H1 H2 H3) as Hrun.
  split; [exact H1|]. split; [exact H2|]. split; [exact H3|].
  split; [reflexivity|]. rewrite Hrun. split; reflexivity.
Defined.

(** ** Ring programming and packet sizes *)

Lemma ring_payloads_ok actions zones :
  bytes_ok actions -> bytes_ok zones -> (length zones <= 255)%nat ->
  Forall bytes_ok (payloads (TronSpec.ring_script actions zones)).
Proof.
  intros Ha Hz Hlen.
  assert (bytes_ok (TronSpec.select_cmd zones)) as Hsel.
  { unfold TronSpec.select_cmd. apply Forall_app. split; [|done].
    repeat constructor; lia. }
  assert (bytes_ok (TronSpec.action_cmd actions)) as Hact.
  { constructor; [lia|done]. }
  cbn. repeat (constructor; [first [exact Hsel | exact Hact
                                   | apply bytes_ok_check; reflexivity]|]).
  constructor.
Qed.

(** X5. Ring programming is five sends and nothing else: clear, start new,
    select the zones (their count, then the zones), the action, play.  On
    an open session, with byte-sized arguments, each is written as one
    report followed by a sleep of 20 ms.  The three fixed reports have 33
    bytes; the select report has 33 bytes up to 28 zones and 5 bytes more
    than the zones beyond that, the action report 33 bytes up to 31 action
    bytes and 2 bytes more than the action beyond that: the length is not
    enforced. *)
Theorem ring_programming_commands (E : env) (actions : list Z)
        (zones : option (list Z)) (s : hid) :
  let zs := default Tron.RING_ZONES zones in
  let cmds :=
    [[0x21; 0x00; 0x04; 0x00; 0xFF];
     [0x21; 0x00; 0x01; 0x00; 0xFF];
     [0x23; 0x01; 0x00; Z.of_nat (length zs)] ++ zs;
     0x24 :: actions;
     [0x21; 0x00; 0x03; 0x00; 0xFF]] in
  let run := Tron._set_ring E actions zones s in
  refines (Tron._send E) (Tron._set_ring E actions zones) (map Send cmds)
  /\ Tron.RING_ZONES = [10; 11; 12; 13; 14; 15; 16; 17; 18; 19]
  /\ sent (trace run) `prefix_of` map (frame 0x03 33) cmds
  /\ (forall n,
        fd s = Some n ->
        bytes_ok actions -> bytes_ok zs -> (length zs <= 255)%nat ->
        (forall buf, refuses E n buf = false) ->
        run = Outcome
                (flat_map (fun c => [Write n (frame 0x03 33 c); Sleep 20])
                          cmds)
                s (inr tt))
  /\ map (@length Z) (map (frame 0x03 33) cmds)
     = [33; 33; Nat.max 33 (5 + length zs);
        Nat.max 33 (2 + length actions); 33]%nat.
Proof.
  intros zs cmds run. subst run.
  pose proof (set_ring_refines E actions zones) as Href.
  split_and!; [| | | |subst cmds; unfold frame; cbn [map];
                      rewrite !length_cons, !length_app, !repeat_length,
                        !length_cons, ?length_app; cbn [length];
                      repeat f_equal; lia].
  - exact Href.
  - reflexivity.
  - apply (tron_script_prefix E _ _ s Href).
  - intros n Hfd Ha Hz Hlen Hr.
    rewrite (tron_script_ok E _ _ s n Href Hfd
               (ring_payloads_ok actions zs Ha Hz Hlen) Hr).
    cbn [TronSpec.ring_script map flat_map op_events app].
    unfold tron_wire. rewrite Hfd. done.
Qed.

Lemma ring_programming_commands_witness :
  fd session3 = Some 3
  /\ bytes_ok (Tron._pulse_action 0xFF 0x14 0x93)
  /\ bytes_ok Tron.RING_ZONES
  /\ (length Tron.RING_ZONES <= 255)%nat
  /\ (forall buf, refuses quiet_env 3 buf = false)
  /\ length (trace (Tron._set_ring quiet_env
                      (Tron._pulse_action 0xFF 0x14 0x93) None session3))
     = 10%nat.
Proof.
  assert (H1 : fd session3 = Some 3) by reflexivity.
  assert (H2 : bytes_ok (Tron._pulse_action 0xFF 0x14 0x93))
    by (apply bytes_ok_check; reflexivity).
  assert (H3 : bytes_ok Tron.RING_ZONES)
    by (apply bytes_ok_check; reflexivity).
  assert (H4 : (length Tron.RING_ZONES <= 255)%nat)
    by (change (10 <= 255)%nat; lia).
  assert (H5 : forall buf, refuses quiet_env 3 buf = false) by reflexivity.
  destruct (ring_programming_commands quiet_env
              (Tron._pulse_action 0xFF 0x14 0x93) None session3)
    as (_ & _ & _ & Hrun & _).
  rewrite (Hrun 3 H1 H2 H3 H4 H5).
  repeat (split; [first [exact H1|exact H2|exact H3|exact H4|exact H5]|]).
  reflexivity.
Defined.

Lemma tron_apply_refines E actions ring logos :
  refines (Tron._send E)
    (when ring (Tron._set_ring E actions None) ;;
     when logos (Tron._set_logos E actions None))
    ((if ring then TronSpec.ring_script actions Tron.RING_ZONES else [])
     ++ (if logos then TronSpec.logo_script actions Tron.LOGO_ZONES
         else [])).
Proof.
  apply refines_bind; apply refines_when.
  - apply (set_ring_refines E _ None).
  - apply (set_logos_refines E _ None).
Qed.

Lemma tron_apply_payloads_short (actions : list Z) (ring logos : bool) :
  (length actions <= 31)%nat ->
  Forall (fun p => (length p <= 32)%nat)
    (payloads
       ((if ring then TronSpec.ring_script actions Tron.RING_ZONES else [])
        ++ (if logos then TronSpec.logo_script actions Tron.LOGO_ZONES
            else []))).
Proof.
  intros Hlen.
  assert (length (TronSpec.action_cmd actions) <= 32)%nat as Hact
    by (cbn; lia).
  assert (forall zones,
            (length (TronSpec.select_cmd zones) <= 32)%nat ->
            Forall (fun p => (length p <= 32)%nat)
                   (payloads (TronSpec.ring_script actions zones))
            /\ Forall (fun p => (length p <= 32)%nat)
                      (payloads (TronSpec.logo_script actions zones)))
    as Hscripts.
  { intros zones Hsel. split.
    - change (payloads (TronSpec.ring_script actions zones))
        with [TronSpec.clear_cmd; TronSpec.start_cmd;
              TronSpec.select_cmd zones; TronSpec.action_cmd actions;
              TronSpec.play_cmd].
      repeat (constructor; [first [exact Hact | exact Hsel
                                  | vm_compute; lia]|]).
      constructor.
    - rewrite logo_payloads. cbn [Tron.POWER_STATES map concat app
                                    TronSpec.group].
      repeat (constructor; [first [exact Hact | exact Hsel
                                  | vm_compute; lia]|]).
      constructor. }
  destruct (Hscripts Tron.RING_ZONES) as [Hring _]; [vm_compute; lia|].
  destruct (Hscripts Tron.LOGO_ZONES) as [_ Hlogo]; [vm_compute; lia|].
  unfold payloads in *. rewrite flat_map_app. apply Forall_app.
  split; [destruct ring|destruct logos]; first [done|constructor].
Qed.

Lemma tron_apply_packets E actions ring logos s :
  (length actions <= 31)%nat ->
  Forall (fun pkt => length pkt = 33%nat)
    (sent (trace ((when ring (Tron._set_ring E actions None) ;;
                   when logos (Tron._set_logos E actions None)) s))).
Proof.
  intros Hlen.
  destruct (tron_script_prefix E _ _ s
              (tron_apply_refines E actions ring logos)) as [[k Hk] _].
  pose proof (tron_apply_payloads_short actions ring logos Hlen) as Hshort.
  assert (Forall (fun pkt => length pkt = 33%nat)
            (map (frame 0x03 33)
               (payloads
                  ((if ring
                    then TronSpec.ring_script actions Tron.RING_ZONES
                    else [])
                   ++ (if logos
                       then TronSpec.logo_script actions Tron.LOGO_ZONES
                       else []))))) as Hall.
  { apply List.Forall_map. eapply List.Forall_impl; [|exact Hshort].
    intros p Hp. apply frame_length. cbv beta in Hp. lia. }
  rewrite Hk in Hall. by apply Forall_app in Hall as [Hall _].
Qed.

(** X6. Whatever the colours, their number and the targets, every report
    the public effect methods of the ring/logo controller write has exactly
    33 bytes: the three-colour cap of the morph action keeps the longest
    payload at 25 bytes. *)
Theorem tron_packets_have_33_bytes (E : env) (ring logos : bool) (s : hid) :
  (forall r g b,
     Forall (fun pkt => length pkt = 33%nat)
            (sent (trace (Tron.static E r g b ring logos s))))
  /\ (forall colors,
        (length (Tron._morph_actions colors) <= 24)%nat
        /\ Forall (fun pkt => length pkt = 33%nat)
                  (sent (trace (Tron.breathe E colors ring logos s)))
        /\ Forall (fun pkt => length pkt = 33%nat)
                  (sent (trace (Tron.morph E colors ring logos s))))
  /\ Forall (fun pkt => length pkt = 33%nat)
            (sent (trace (Tron.spectrum E ring logos s)))
  /\ (forall r g b,
        Forall (fun pkt => length pkt = 33%nat)
               (sent (trace (Tron.pulse E r g b ring logos s))))
  /\ Forall (fun pkt => length pkt = 33%nat)
            (sent (trace (Tron.off E ring logos s))).
Proof.
  assert (forall colors, (length (Tron._morph_actions colors) <= 24)%nat)
    as Hmorph.
  { intros colors. rewrite morph_actions_spec, morph_blocks_length,
      length_firstn. lia. }
  split_and!.
  - intros r g b. apply tron_apply_packets. cbn. lia.
  - intros colors. split; [apply Hmorph|].
    split; apply tron_apply_packets; specialize (Hmorph colors); lia.
  - apply tron_apply_packets. cbn. lia.
  - intros r g b. apply tron_apply_packets. cbn. lia.
  - apply tron_apply_packets. cbn. lia.
Qed.

(** ** Runs that send nothing *)

Lemma bind_lift_inl {S A B} (e : exn) (f : A -> M S B) s :
  bind (lift_exn (inl e)) f s = Outcome [] s (inl e).
Proof. reflexivity. Qed.



(** ** The driver rebind *)






(** X9. The driver rebind never raises and leaves the session as it is.
    It does nothing when the keyboard was not found, when its descriptor
    record is missing, or when the record has no [HID_PHYS=] line with a
    value.  Otherwise it handles one identifier, not empty and without a
    slash: it writes it to the usbhid unbind file, sleeps 200 ms and writes
    the same identifier to the bind file, or, when the files are not
    writable, runs the privileged helper once. *)




Lemma sent_rebind E s : sent (trace (Keyboard._rebind E s)) = [].
Proof.
  pose proof (rebind_events E s) as H.
  induction H as [|e tr He _ IH]; [done|].
  destruct e; try done; exact IH.
Qed.


Lemma sent_skip e tr :
  match e with Ioctl _ _ _ | Write _ _ => false | _ => true end = true ->
  sent (e :: tr) = sent tr.
Proof. by destruct e. Qed.
Lemma unrecognized_dispatch E parse cmd color_args dk ring logos :
  recognized cmd = false ->
  dispatch E parse cmd color_args dk ring logos
  = (emit (PrintErr ("Unknown command: " +:+ cmd)) ;;
     emit (Print doc) ;;
     raise (SystemExit 1)).
Proof.
  unfold recognized. cbn [existsb]. intros H.
  repeat (apply orb_false_iff in H as [? H]).
  unfold dispatch.
  repeat match goal with
         | Hc : String.eqb cmd ?lit = false |- _ => rewrite Hc; clear Hc
         end.
  reflexivity.
Qed.


Lemma sent_open_events E targeted device warning :
  sent (open_events E targeted device warning) = [].
Proof. unfold open_events. by destruct targeted, (truthy device). Qed.

Lemma sent_close_events E (kbd_on tron_on : bool) kdev tdev :
  sent (close_events E kbd_on tron_on kdev tdev) = [].
Proof.
  unfold close_events. rewrite sent_app.
  pose proof (sent_rebind E (Hid kdev None)) as Hreb.
  destruct kbd_on, (close_failure E _ kdev), tron_on;
    rewrite ?sent_skip by reflexivity; by rewrite ?Hreb.
Qed.

(** X8. An unrecognized command is found out only inside the [try] block.
    When the command word is ASCII and no open raises, the targeted devices
    have been opened by then, nothing is sent to them, the error, with the
    word in lower case, and the usage text are printed, and the [finally]
    block follows: the keyboard close with its driver rebind, then the
    ring/logo close.  The run ends with exit status 1, unless the driver
    rebind raises: then its exception ends the run and the ring/logo
    session is not closed. *)
Theorem unknown_command_run (E : env) (parse : string -> exn + color)
        (argv : list string) (arg0 : string) (color_args : list string)
        (kdev tdev : option string) :
  wants_help argv = false ->
  positional argv = arg0 :: color_args ->
  find_hidraw E "0D62" "BABC" = inr kdev ->
  find_hidraw E "187C" "0550" = inr tdev ->
  is_ascii arg0 = true ->
  recognized (lower arg0) = false ->
  let kbd_on := keyboard_targeted argv && truthy kdev in
  let tron_on := (ring_targeted argv || logos_targeted argv) && truthy tdev in
  open_failure E kbd_on kdev = None ->
  open_failure E tron_on tdev = None ->
  let run := main E parse argv boot in
  run
  = Outcome
      (open_events E (keyboard_targeted argv) kdev
                   "Warning: keyboard not found"
       ++ open_events E (ring_targeted argv || logos_targeted argv) tdev
                      "Warning: AW-ELC not found"
       ++ [PrintErr ("Unknown command: " +:+ lower arg0); Print doc]
       ++ (if kbd_on
           then Close (new_fd E (default "" kdev))
                :: trace (Keyboard._rebind E (Hid kdev None))
           else [])
       ++ match close_failure E kbd_on kdev with
          | Some _ => []
          | None =>
              if tron_on then [Close (new_fd E (default "" tdev))] else []
          end)
      (World (Hid kdev None)
             match close_failure E kbd_on kdev with
             | Some _ => session E tron_on tdev
             | None => Hid tdev None
             end)
      match close_failure E kbd_on kdev with
      | Some e => inl e
      | None => inl (SystemExit 1)
      end
  /\ sent (trace run) = [].
Proof.
  intros Hhelp Hpos Hk Ht _ Hcmd kbd_on tron_on Hko Hto run. subst run.
  rewrite (main_shape E parse argv arg0 color_args kdev tdev
             Hhelp Hpos Hk Ht).
  cbv zeta. fold kbd_on. fold tron_on. rewrite Hko, Hto.
  rewrite (unrecognized_dispatch E parse (lower arg0) color_args _ _ _ Hcmd).
  cbn [bind emit raise trace state result app].
  split; [reflexivity|].
  rewrite !sent_app, !sent_open_events, !sent_skip by reflexivity.
  by rewrite sent_close_events.
Qed.

Lemma unknown_command_run_witness :
  wants_help ["dance"] = false
  /\ positional ["dance"] = ["dance"]
  /\ find_hidraw laptop_env "0D62" "BABC" = inr (Some "/dev/hidraw0")
  /\ find_hidraw laptop_env "187C" "0550" = inr (Some "/dev/hidraw2")
  /\ is_ascii "dance" = true
  /\ recognized (lower "dance") = false
  /\ open_failure laptop_env
       (keyboard_targeted ["dance"] && truthy (Some "/dev/hidraw0"))
       (Some "/dev/hidraw0") = None
  /\ open_failure laptop_env
       ((ring_targeted ["dance"] || logos_targeted ["dance"])
        && truthy (Some "/dev/hidraw2"))
       (Some "/dev/hidraw2") = None
  /\ result (main laptop_env parse_color ["dance"] boot)
     = inl (SystemExit 1)
  /\ closed_fds (trace (main laptop_env parse_color ["dance"] boot))
     = [3; 4]
  /\ sent (trace (main laptop_env parse_color ["dance"] boot)) = [].
Proof.
  assert (H1 : wants_help ["dance"] = false) by reflexivity.
  assert (H2 : positional ["dance"] = ["dance"]) by reflexivity.
  assert (H3 : find_hidraw laptop_env "0D62" "BABC"
               = inr (Some "/dev/hidraw0")) by reflexivity.
  assert (H4 : find_hidraw laptop_env "187C" "0550"
               = inr (Some "/dev/hidraw2")) by reflexivity.
  assert (H5 : is_ascii "dance" = true) by reflexivity.
  assert (H6 : recognized (lower "dance") = false) by reflexivity.
  assert (H7 : open_failure laptop_env
                 (keyboard_targeted ["dance"]
                  && truthy (Some "/dev/hidraw0"))
                 (Some "/dev/hidraw0") = None) by reflexivity.
  assert (H8 : open_failure laptop_env
                 ((ring_targeted ["dance"] || logos_targeted ["dance"])
                  && truthy (Some "/dev/hidraw2"))
                 (Some "/dev/hidraw2") = None) by reflexivity.
  destruct (unknown_command_run laptop_env parse_color ["dance"] "dance" []
              (Some "/dev/hidraw0") (Some "/dev/hidraw2")
              H1 H2 H3 H4 H5 H6 H7 H8) as [Hrun Hsent].
  repeat (split; [first [exact H1|exact H2|exact H3|exact H4|exact H5
                        |exact H6|exact H7|exact H8]|]).
  rewrite Hrun. split; [reflexivity|]. split; [reflexivity|].
  rewrite <- Hrun. exact Hsent.
Defined.

Ltac eval_command_tests :=
  repeat match goal with
         | |- context [String.eqb ?a ?b] =>
             let v := eval vm_compute in (String.eqb a b) in
             change (String.eqb a b) with v
         end;
  cbv iota.

Lemma dispatch_parse_error E parse cmd color_args dk ring logos e w :
  ((cmd = "static" \/ cmd = "pulse")
   /\ first_color_or_default parse color_args = inl e)
  \/ ((cmd = "breathe" \/ cmd = "morph")
      /\ colors_or_default parse color_args = inl e) ->
  dispatch E parse cmd color_args dk ring logos w = Outcome [] w (inl e).
Proof.
  intros [[[-> | ->] H]|[[-> | ->] H]]; unfold dispatch;
    eval_command_tests; rewrite H; reflexivity.
Qed.

(** X10. When a colour token cannot be parsed, the exception is raised
    inside the [try] block before anything is sent: for [static] and [pulse]
    only the first token counts, for [breathe] and [morph] every token.  The
    sessions that were opened are closed, the keyboard driver is rebound,
    and the run ends with that exception. *)

(** X10. When a colour token cannot be parsed, the exception is raised
    inside the [try] block before anything is sent: for [static] and [pulse]
    only the first token counts, for [breathe] and [morph] every token.
    When no open raised, the [finally] block follows: the keyboard close
    with its driver rebind, then the ring/logo close.  The run ends with the
    exception of the parse, unless the driver rebind raises: then that
    exception replaces it and the ring/logo session is not closed. *)
Theorem malformed_color_run (E : env) (parse : string -> exn + color)
        (argv : list string) (arg0 : string) (color_args : list string)
        (kdev tdev : option string) (e : exn) :
  wants_help argv = false ->
  positional argv = arg0 :: color_args ->
  find_hidraw E "0D62" "BABC" = inr kdev ->
  find_hidraw E "187C" "0550" = inr tdev ->
  ((lower arg0 = "static" \/ lower arg0 = "pulse")
   /\ first_color_or_default parse color_args = inl e)
  \/ ((lower arg0 = "breathe" \/ lower arg0 = "morph")
      /\ colors_or_default parse color_args = inl e) ->
  let kbd_on := keyboard_targeted argv && truthy kdev in
  let tron_on := (ring_targeted argv || logos_targeted argv) && truthy tdev in
  open_failure E kbd_on kdev = None ->
  open_failure E tron_on tdev = None ->
  let run := main E parse argv boot in
  run
  = Outcome
      (open_events E (keyboard_targeted argv) kdev
                   "Warning: keyboard not found"
       ++ open_events E (ring_targeted argv || logos_targeted argv) tdev
                      "Warning: AW-ELC not found"
       ++ (if kbd_on
           then Close (new_fd E (default "" kdev))
                :: trace (Keyboard._rebind E (Hid kdev None))
           else [])
       ++ match close_failure E kbd_on kdev with
          | Some _ => []
          | None =>
              if tron_on then [Close (new_fd E (default "" tdev))] else []
          end)
      (World (Hid kdev None)
             match close_failure E kbd_on kdev with
             | Some _ => session E tron_on tdev
             | None => Hid tdev None
             end)
      match close_failure E kbd_on kdev with
      | Some e' => inl e'
      | None => inl e
      end
  /\ sent (trace run) = [].
Proof.
  intros Hhelp Hpos Hk Ht Hbad kbd_on tron_on Hko Hto run. subst run.
  rewrite (main_shape E parse argv arg0 color_args kdev tdev
             Hhelp Hpos Hk Ht).
  cbv zeta. fold kbd_on. fold tron_on. rewrite Hko, Hto.
  rewrite (dispatch_parse_error E parse (lower arg0) color_args _ _ _ e _
             Hbad).
  cbn [trace state result app].
  split; [reflexivity|].
  rewrite !sent_app, !sent_open_events, sent_close_events.
  reflexivity.
Qed.

Lemma malformed_color_run_witness :
  wants_help ["breathe"; "FF0000"; "00GG00"] = false
  /\ positional ["breathe"; "FF0000"; "00GG00"]
     = ["breathe"; "FF0000"; "00GG00"]
  /\ find_hidraw laptop_env "0D62" "BABC" = inr (Some "/dev/hidraw0")
  /\ find_hidraw laptop_env "187C" "0550" = inr (Some "/dev/hidraw2")
  /\ colors_or_default parse_color ["FF0000"; "00GG00"] = inl ValueError
  /\ open_failure laptop_env
       (keyboard_targeted ["breathe"; "FF0000"; "00GG00"]
        && truthy (Some "/dev/hidraw0"))
       (Some "/dev/hidraw0") = None
  /\ open_failure laptop_env
       ((ring_targeted ["breathe"; "FF0000"; "00GG00"]
         || logos_targeted ["breathe"; "FF0000"; "00GG00"])
        && truthy (Some "/dev/hidraw2"))
       (Some "/dev/hidraw2") = None
  /\ result (main laptop_env parse_color ["breathe"; "FF0000"; "00GG00"]
               boot) = inl ValueError
  /\ sent (trace (main laptop_env parse_color
                    ["breathe"; "FF0000"; "00GG00"] boot)) = [].
Proof.
  assert (H1 : wants_help ["breathe"; "FF0000"; "00GG00"] = false)
    by reflexivity.
  assert (H2 : positional ["breathe"; "FF0000"; "00GG00"]
               = ["breathe"; "FF0000"; "00GG00"]) by reflexivity.
  assert (H3 : find_hidraw laptop_env "0D62" "BABC"
               = inr (Some "/dev/hidraw0")) by reflexivity.
  assert (H4 : find_hidraw laptop_env "187C" "0550"
               = inr (Some "/dev/hidraw2")) by reflexivity.
  assert (H5 : colors_or_default parse_color ["FF0000"; "00GG00"]
               = inl ValueError) by reflexivity.
  assert (H6 : open_failure laptop_env
                 (keyboard_targeted ["breathe"; "FF0000"; "00GG00"]
                  && truthy (Some "/dev/hidraw0"))
                 (Some "/dev/hidraw0") = None) by reflexivity.
  assert (H7 : open_failure laptop_env
                 ((ring_targeted ["breathe"; "FF0000"; "00GG00"]
                   || logos_targeted ["breathe"; "FF0000"; "00GG00"])
                  && truthy (Some "/dev/hidraw2"))
                 (Some "/dev/hidraw2") = None) by reflexivity.
  destruct (malformed_color_run laptop_env parse_color
              ["breathe"; "FF0000"; "00GG00"] "breathe"
              ["FF0000"; "00GG00"]
              (Some "/dev/hidraw0") (Some "/dev/hidraw2") ValueError
              H1 H2 H3 H4 (or_intror (conj (or_introl eq_refl) H5)) H6 H7)
    as [Hrun Hsent].
  repeat (split; [first [exact H1|exact H2|exact H3|exact H4|exact H5
                        |exact H6|exact H7]|]).
  rewrite Hrun. split; [reflexivity|].
  rewrite <- Hrun. exact Hsent.
Defined.
(** ** A whole run *)

Lemma dispatch_plan E parse cmd color_args dk ring logos ke actions msg :
  plan parse cmd color_args = Some (inr (ke, actions, msg)) ->
  forall w,
    dispatch E parse cmd color_args dk ring logos w
    = (when dk (on_kbd (keyboard_method E ke)) ;;
       when (ring || logos)
         (on_tron (when ring (Tron._set_ring E actions None) ;;
                   when logos (Tron._set_logos E actions None))) ;;
       emit (Print msg)) w.
Proof.
  unfold plan, dispatch. intros H w.
  repeat match goal with
         | |- context [String.eqb cmd ?lit] =>
             destruct (String.eqb cmd lit)
         end; try discriminate H.
  - destruct (first_color_or_default parse color_args) as [e|[[r g] b]];
      [discriminate H|]. injection H as <- <- <-. by rewrite bind_lift_inr.
  - destruct (colors_or_default parse color_args) as [e|colors];
      [discriminate H|]. injection H as <- <- <-. by rewrite bind_lift_inr.
  - destruct (colors_or_default parse color_args) as [e|colors];
      [discriminate H|]. injection H as <- <- <-. by rewrite bind_lift_inr.
  - injection H as <- <- <-. reflexivity.
  - injection H as <- <- <-. reflexivity.
  - destruct (first_color_or_default parse color_args) as [e|[[r g] b]];
      [discriminate H|]. injection H as <- <- <-. by rewrite bind_lift_inr.
  - injection H as <- <- <-. reflexivity.
Qed.











(** ** A run that a device interrupts *)












(** ** A machine without the controllers *)

(** X13. On a machine where neither controller is found, a recognised
    command whose colours parse still ends normally: each targeted
    controller costs one warning on standard error, nothing is opened,
    written, closed or rebound, whatever the colour values are, and the
    message of the command is printed as if the lights had been set. *)
Theorem run_without_controllers (E : env) (parse : string -> exn + color)
        (argv : list string) (arg0 : string) (color_args : list string)
        (ke : KeyboardSpec.effect) (actions : list Z) (msg : string) :
  wants_help argv = false ->
  positional argv = arg0 :: color_args ->
  find_hidraw E "0D62" "BABC" = inr None ->
  find_hidraw E "187C" "0550" = inr None ->
  plan parse (lower arg0) color_args = Some (inr (ke, actions, msg)) ->
  main E parse argv boot
  = Outcome
      ((if keyboard_targeted argv
        then [PrintErr "Warning: keyboard not found"] else [])
       ++ (if ring_targeted argv || logos_targeted argv
           then [PrintErr "Warning: AW-ELC not found"] else [])
       ++ [Print msg])
      boot (inr tt).
Proof.
  intros Hhelp Hpos Hk Ht Hplan.
  rewrite (main_shape E parse argv arg0 color_args None None
             Hhelp Hpos Hk Ht).
  cbv zeta. cbn [truthy]. rewrite !andb_false_r.
  unfold open_failure, close_events, closed_world, close_failure,
    final_result.
  rewrite (dispatch_plan E parse (lower arg0) color_args _ _ _ ke actions msg
             Hplan).
  unfold open_events, session, boot. cbn [truthy orb when].
  by destruct (keyboard_targeted argv),
       (ring_targeted argv || logos_targeted argv).
Qed.

Lemma run_without_controllers_witness :
  wants_help ["pulse"; "--keyboard"; "--ring"] = false
  /\ positional ["pulse"; "--keyboard"; "--ring"] = ["pulse"]
  /\ find_hidraw quiet_env "0D62" "BABC" = inr None
  /\ find_hidraw quiet_env "187C" "0550" = inr None
  /\ plan parse_color (lower "pulse") []
     = Some (inr (KeyboardSpec.Pulse 255 20 147,
                  Tron._pulse_action 255 20 147, "Pulsing #FF1493"))
  /\ main quiet_env parse_color ["pulse"; "--keyboard"; "--ring"] boot
     = Outcome [PrintErr "Warning: keyboard not found";
                PrintErr "Warning: AW-ELC not found";
                Print "Pulsing #FF1493"]
               boot (inr tt).
Proof.
  assert (H1 : wants_help ["pulse"; "--keyboard"; "--ring"] = false)
    by reflexivity.
  assert (H2 : positional ["pulse"; "--keyboard"; "--ring"] = ["pulse"])
    by reflexivity.
  assert (H3 : find_hidraw quiet_env "0D62" "BABC" = inr None)
    by reflexivity.
  assert (H4 : find_hidraw quiet_env "187C" "0550" = inr None)
    by reflexivity.
  assert (H5 : plan parse_color (lower "pulse") []
               = Some (inr (KeyboardSpec.Pulse 255 20 147,
                            Tron._pulse_action 255 20 147,
                            "Pulsing #FF1493"))) by reflexivity.
  repeat (split; [first [exact H1|exact H2|exact H3|exact H4|exact H5]|]).
  exact (run_without_controllers quiet_env parse_color
           ["pulse"; "--keyboard"; "--ring"] "pulse" [] _ _ _
           H1 H2 H3 H4 H5).
Defined.

(** ** An open that fails *)

(** X14. The sessions are opened before the [try] block, so an exception of
    [os.open] ends the run at once, with that exception: nothing is sent and
    nothing is printed on standard output, whatever the command word and the
    colours are, and no close and no driver rebind follow.  When the
    keyboard open is the one that fails the trace is empty; when the
    ring/logo open fails after the keyboard was opened, the keyboard session
    keeps its handle. *)
Theorem failed_open_run (E : env) (parse : string -> exn + color)
        (argv : list string) (arg0 : string) (color_args : list string)
        (kdev tdev : option string) :
  wants_help argv = false ->
  positional argv = arg0 :: color_args ->
  find_hidraw E "0D62" "BABC" = inr kdev ->
  find_hidraw E "187C" "0550" = inr tdev ->
  let kbd_on := keyboard_targeted argv && truthy kdev in
  let tron_on := (ring_targeted argv || logos_targeted argv) && truthy tdev in
  let run := main E parse argv boot in
  (forall e,
     open_failure E kbd_on kdev = Some e ->
     run = Outcome [] (World (Hid kdev None) (Hid tdev None)) (inl e))
  /\ (forall e,
        open_failure E kbd_on kdev = None ->
        open_failure E tron_on tdev = Some e ->
        run = Outcome
                (if kbd_on
                 then [Open (default "" kdev) (new_fd E (default "" kdev))]
                 else if keyboard_targeted argv
                      then [PrintErr "Warning: keyboard not found"]
                      else [])
                (World (Hid kdev (if kbd_on
                                  then Some (new_fd E (default "" kdev))
                                  else None))
                       (Hid tdev None))
                (inl e)).
Proof.
  intros Hhelp Hpos Hk Ht kbd_on tron_on run. subst run.
  rewrite (main_shape E parse argv arg0 color_args kdev tdev
             Hhelp Hpos Hk Ht).
  cbv zeta. fold kbd_on. fold tron_on. split.
  - intros e He. by rewrite He.
  - intros e Hko Hto. rewrite Hko, Hto. unfold open_events, session.
    subst kbd_on. by destruct (keyboard_targeted argv), (truthy kdev).
Qed.

Lemma failed_open_run_witness :
  wants_help ["dance"] = false
  /\ positional ["dance"] = ["dance"]
  /\ find_hidraw locked_env "0D62" "BABC" = inr (Some "/dev/hidraw0")
  /\ find_hidraw locked_env "187C" "0550" = inr (Some "/dev/hidraw2")
  /\ open_failure locked_env
       (keyboard_targeted ["dance"] && truthy (Some "/dev/hidraw0"))
       (Some "/dev/hidraw0") = None
  /\ open_failure locked_env
       ((ring_targeted ["dance"] || logos_targeted ["dance"])
        && truthy (Some "/dev/hidraw2"))
       (Some "/dev/hidraw2") = Some PermissionError
  /\ main locked_env parse_color ["dance"] boot
     = Outcome [Open "/dev/hidraw0" 3]
               (World (Hid (Some "/dev/hidraw0") (Some 3))
                      (Hid (Some "/dev/hidraw2") None))
               (inl PermissionError).
Proof.
  assert (H1 : wants_help ["dance"] = false) by reflexivity.
  assert (H2 : positional ["dance"] = ["dance"]) by reflexivity.
  assert (H3 : find_hidraw locked_env "0D62" "BABC"
               = inr (Some "/dev/hidraw0")) by reflexivity.
  assert (H4 : find_hidraw locked_env "187C" "0550"
               = inr (Some "/dev/hidraw2")) by reflexivity.
  assert (H5 : open_failure locked_env
                 (keyboard_targeted ["dance"]
                  && truthy (Some "/dev/hidraw0"))
                 (Some "/dev/hidraw0") = None) by reflexivity.
  assert (H6 : open_failure locked_env
                 ((ring_targeted ["dance"] || logos_targeted ["dance"])
                  && truthy (Some "/dev/hidraw2"))
                 (Some "/dev/hidraw2") = Some PermissionError)
    by reflexivity.
  destruct (failed_open_run locked_env parse_color ["dance"] "dance" []
              (Some "/dev/hidraw0") (Some "/dev/hidraw2") H1 H2 H3 H4)
    as [_ Htron].
  repeat (split; [first [exact H1|exact H2|exact H3|exact H4|exact H5
                        |exact H6]|]).
  exact (Htron PermissionError H5 H6).
Defined.
